(** * open-super-whisper: the transcription service and the recording toggle

  A shallow embedding of [src/core/whisper_api.py] (class
  [WhisperTranscriber]) and of the recording/transcription part of
  [src/gui/windows/main_window.py] (class [MainWindow]), followed by the
  properties of the two that the specification states.

  Python values are embedded as follows.
  - [str] is [string] (a sequence of bytes; the literals of the source
    are kept in their UTF-8 encoding).
  - an optional argument or attribute ([None] or a [str]) is
    [option string]; its truth value is [truthy].
  - a [dict] with [str] keys used as a map is a [gmap string _].
  - a computation that can raise is a value of [res]; the body of
    [transcribe], which prints and calls the remote endpoint, runs in the
    state-and-exception monad [M] over the record [io].
  Only subclasses of [Exception] are exceptions here: [KeyboardInterrupt]
  and [SystemExit], which [except Exception] does not catch, are outside
  the model. *)

From stdpp Require Import gmap strings list pretty.

Set Default Proof Using "Type".
Set Warnings "-register-all,-clear-no-such-hyp".

(** ** Python prelude *)

Module Py.

(** Classes of the exceptions the two modules raise by name; any other
    class is [OtherException] with its name. *)
Inductive exn_class : Type :=
| ValueError
| FileNotFoundError
| OtherException (name : string).

(** An exception: its class and [str(e)]. *)
Record exn : Type := Exn { exn_cls : exn_class; exn_str : string }.

(** The outcome of a computation: a value, or a raised exception. *)
Inductive res (A : Type) : Type :=
| Ret (a : A)
| Raise (e : exn).
Arguments Ret {A} a.
Arguments Raise {A} e.

Definition res_bind {A B} (r : res A) (k : A → res B) : res B :=
  match r with
  | Ret a => k a
  | Raise e => Raise e
  end.

Definition returns {A} (r : res A) : Prop := ∃ a, r = Ret a.
Definition raises {A} (r : res A) : Prop := ∃ e, r = Raise e.

(** Values that [transcribe] can hand back: [None], a [str], a [list],
    a [dict] (kept as an association list, in insertion order). *)
Inductive pyval : Type :=
| PNone
| PStr (s : string)
| PList (xs : list pyval)
| PDict (kvs : list (string * pyval)).

(** Truth value of an optional string: [None] and [""] are false. *)
Definition truthy (o : option string) : bool :=
  match o with
  | None => false
  | Some s => negb (String.eqb s "")
  end.

(** [a or b] on optional strings. *)
Definition py_or (a b : option string) : option string :=
  if truthy a then a else b.

(** [a or d] where [d] is a string literal. *)
Definition py_or_lit (a : option string) (d : string) : string :=
  match a with
  | Some s => if String.eqb s "" then d else s
  | None => d
  end.

(** [sep.join(xs)]. *)
Fixpoint join (sep : string) (xs : list string) : string :=
  match xs with
  | [] => ""
  | [x] => x
  | x :: rest => x +:+ sep +:+ join sep rest
  end.

(** Does [s] start with [p]?  ([s.startswith(p)]) *)
Definition startswith (s p : string) : bool := String.prefix p s.

(** The code points of a string, read from its UTF-8 bytes. *)
Fixpoint decode_utf8 (pending : nat) (acc : N) (bytes : list N) : list N :=
  match bytes with
  | [] => []
  | b :: rest =>
      match pending with
      | 0 =>
          if (b <? 128)%N then b :: decode_utf8 0 0 rest
          else if (b <? 224)%N then decode_utf8 1 (b `mod` 32)%N rest
          else if (b <? 240)%N then decode_utf8 2 (b `mod` 16)%N rest
          else decode_utf8 3 (b `mod` 8)%N rest
      | 1 => (acc * 64 + b `mod` 64)%N :: decode_utf8 0 0 rest
      | S p => decode_utf8 p (acc * 64 + b `mod` 64)%N rest
      end
  end.

Definition code_points (s : string) : list N :=
  decode_utf8 0 0 (Ascii.N_of_ascii <$> String.list_ascii_of_string s).

(** [width] lower-case hexadecimal digits of [n]. *)
Fixpoint hex_fixed (width : nat) (n : N) : string :=
  match width with
  | 0 => ""
  | S w =>
      hex_fixed w (n `div` 16)%N
      +:+ match String.get (N.to_nat (n `mod` 16)%N) "0123456789abcdef" with
          | Some c => String c ""
          | None => ""
          end
  end.

(** The escaped form of a character in Python's error messages. *)
Definition escape (c : N) : string :=
  if (c <? 256)%N then "\x" +:+ hex_fixed 2 c
  else if (c <? 65536)%N then "\u" +:+ hex_fixed 4 c
  else "\U" +:+ hex_fixed 8 c.

(** The leading ASCII characters of a list of code points: how many, and
    what follows them. *)
Fixpoint skip_ascii (cps : list N) : nat * list N :=
  match cps with
  | [] => (0, [])
  | c :: rest =>
      if (c <? 128)%N
      then let '(n, tail) := skip_ascii rest in (S n, tail)
      else (0, cps)
  end.

(** The length of the leading run of characters outside ASCII. *)
Fixpoint run_length (cps : list N) : nat :=
  match cps with
  | [] => 0
  | c :: rest => if (c <? 128)%N then 0 else S (run_length rest)
  end.

(** What [s.encode("ascii")] raises: nothing for an ASCII string, and
    otherwise the [UnicodeEncodeError] that names the first run of
    characters outside ASCII. *)
Definition ascii_encode_error (s : string) : option exn :=
  let '(start, tail) := skip_ascii (code_points s) in
  match tail with
  | [] => None
  | c :: _ =>
      let n := run_length tail in
      Some (Exn (OtherException "UnicodeEncodeError")
              (if Nat.eqb n 1 then
                 "'ascii' codec can't encode character '" +:+ escape c
                 +:+ "' in position " +:+ pretty start
                 +:+ ": ordinal not in range(128)"
               else
                 "'ascii' codec can't encode characters in position "
                 +:+ pretty start +:+ "-" +:+ pretty (start + n - 1)
                 +:+ ": ordinal not in range(128)"))
  end.

End Py.
Import Py.

(** ** [src/core/whisper_api.py] *)

Module WhisperTranscriber.

(** The parameters passed to the endpoint as [**params]. *)
Abbreviation params := (gmap string string).

(** What the code observes of the object the SDK returns from
    [audio.transcriptions.create]. *)
Record response : Type := Response {
  (** [Some r] when [hasattr(response, "model_dump")]; [r] is the outcome
      of [response.model_dump()] *)
  model_dump : option (res pyval);
  (** [Some v] when [isinstance(response, (dict, list))] *)
  as_dict_or_list : option pyval;
  (** the outcome of [json.loads(response)] *)
  json_loads : res pyval;
  (** [Some v] when the attribute [text] exists *)
  text_attr : option pyval;
  (** the outcome of [str(response)] *)
  str_of : res string
}.

(** The SDK client: the credentials it was built from and the behaviour
    of [audio.transcriptions.create(file=audio, **params)] on the bytes of
    the opened file. *)
Record sdk_client : Type := Client {
  client_api_key : option string;
  client_azure_endpoint : option string;
  client_api_version : string;
  create : string → params → res response
}.

(** The instance attributes. *)
Record t : Type := Make {
  api_key : option string;
  azure_endpoint : option string;
  api_version : string;
  azure_deployment : option string;
  client : sdk_client;
  model : string;
  custom_vocabulary : list string;
  system_instructions : list string
}.

(** The model catalogue: (id, name, description). *)
Definition AVAILABLE_MODELS : list (string * string * string) :=
  [ ("whisper-1", "Whisper", "OpenAI's open-source Whisper model");
    ("gpt-4o-transcribe", "GPT-4o Transcribe",
     "High-performance transcription model");
    ("gpt-4o-mini-transcribe", "GPT-4o Mini Transcribe",
     "Lightweight and fast transcription model") ].

Definition get_available_models : list (string * string * string) :=
  AVAILABLE_MODELS.

Definition MSG_SETTINGS_REQUIRED : string :=
  "Azure OpenAI settings are required. Provide api_key + azure_endpoint, "
  +:+ "or set AZURE_OPENAI_API_KEY / AZURE_OPENAI_ENDPOINT environment variables.".

Definition MSG_NO_AZURE_CLIENT : string :=
  "openai package does not support AzureOpenAI client in this environment.".

Definition DEFAULT_API_VERSION : string := "2024-02-15-preview".

(** The process around the constructor: [os.environ], and the name
    [AzureOpenAI] of the module, which is [None] when the import failed
    and otherwise the SDK's constructor (which may itself raise). *)
Record process : Type := Process {
  environ : gmap string string;
  AzureOpenAI : option (option string → option string → string → res sdk_client)
}.

(** [os.getenv(name)] *)
Definition getenv (p : process) (name : string) : option string :=
  environ p !! name.

(** [WhisperTranscriber.__init__] *)
Definition __init__ (p : process)
    (api_key azure_endpoint api_version azure_deployment : option string)
    : res t :=
  let api_key :=
    py_or (py_or api_key (getenv p "AZURE_OPENAI_API_KEY"))
          (getenv p "OPENAI_API_KEY") in
  let azure_endpoint :=
    py_or azure_endpoint (getenv p "AZURE_OPENAI_ENDPOINT") in
  let api_version :=
    py_or_lit (py_or api_version (getenv p "AZURE_OPENAI_API_VERSION"))
              DEFAULT_API_VERSION in
  let azure_deployment :=
    py_or azure_deployment (getenv p "AZURE_OPENAI_DEPLOYMENT") in
  if negb (truthy api_key) || negb (truthy azure_endpoint) then
    Raise (Exn ValueError MSG_SETTINGS_REQUIRED)
  else
    match AzureOpenAI p with
    | None => Raise (Exn ValueError MSG_NO_AZURE_CLIENT)
    | Some new_client =>
        res_bind (new_client api_key azure_endpoint api_version) (λ c,
          Ret {| api_key := api_key;
                 azure_endpoint := azure_endpoint;
                 api_version := api_version;
                 azure_deployment := azure_deployment;
                 client := c;
                 model := "whisper-1";
                 custom_vocabulary := [];
                 system_instructions := [] |})
    end.

Definition set_model (self : t) (model : string) : t :=
  {| api_key := api_key self;
     azure_endpoint := azure_endpoint self;
     api_version := api_version self;
     azure_deployment := azure_deployment self;
     client := client self;
     model := model;
     custom_vocabulary := custom_vocabulary self;
     system_instructions := system_instructions self |}.

Definition set_custom_vocabulary (self : t) (v : list string) : t :=
  {| api_key := api_key self;
     azure_endpoint := azure_endpoint self;
     api_version := api_version self;
     azure_deployment := azure_deployment self;
     client := client self;
     model := model self;
     custom_vocabulary := v;
     system_instructions := system_instructions self |}.

Definition set_system_instructions (self : t) (v : list string) : t :=
  {| api_key := api_key self;
     azure_endpoint := azure_endpoint self;
     api_version := api_version self;
     azure_deployment := azure_deployment self;
     client := client self;
     model := model self;
     custom_vocabulary := custom_vocabulary self;
     system_instructions := v |}.

(** The argument of the two [add_] methods: one [str] or a list. *)
Inductive terms : Type :=
| One (s : string)
| Many (l : list string).

Definition as_list (x : terms) : list string :=
  match x with
  | One s => [s]
  | Many l => l
  end.

Definition add_custom_vocabulary (self : t) (x : terms) : t :=
  set_custom_vocabulary self (custom_vocabulary self ++ as_list x).

Definition clear_custom_vocabulary (self : t) : t :=
  set_custom_vocabulary self [].

Definition get_custom_vocabulary (self : t) : list string :=
  custom_vocabulary self.

Definition add_system_instruction (self : t) (x : terms) : t :=
  set_system_instructions self (system_instructions self ++ as_list x).

Definition clear_system_instructions (self : t) : t :=
  set_system_instructions self [].

Definition get_system_instructions (self : t) : list string :=
  system_instructions self.

(** The two segments that [_build_prompt] collects in [prompt_parts]. *)
Definition prompt_parts (self : t) : list string :=
  (if bool_decide (custom_vocabulary self = []) then []
   else ["Vocabulary: " +:+ join ", " (custom_vocabulary self)])
  ++
  (if bool_decide (system_instructions self = []) then []
   else ["Instructions: " +:+ join ". " (system_instructions self)]).

(** [WhisperTranscriber._build_prompt] *)
Definition _build_prompt (self : t) : option string :=
  let parts := prompt_parts self in
  if bool_decide (parts = []) then None
  else Some (join " " parts).

(** *** The world around [transcribe] *)

(** A path of the file system names a file that opens for reading (with
    its bytes) or one whose [open] raises. *)
Inductive file : Type :=
| Readable (content : string)
| Unreadable (e : exn).

Abbreviation filesystem := (gmap string file).

(** [Path(audio_file).exists()] *)
Definition path_exists (fs : filesystem) (audio_file : string) : bool :=
  bool_decide (is_Some (fs !! audio_file)).

(** [open(audio_path, "rb")], giving the bytes that are then read. *)
Definition open_rb (fs : filesystem) (audio_file : string) : res string :=
  match fs !! audio_file with
  | Some (Readable content) => Ret content
  | Some (Unreadable e) => Raise e
  | None =>
      Raise (Exn FileNotFoundError
               ("[Errno 2] No such file or directory: '" +:+ audio_file +:+ "'"))
  end.

(** What a call leaves behind: the lines printed, and the requests sent to
    the endpoint (file bytes and parameters), both oldest first; and what
    the standard output of the process does with a line it is given:
    [stdout_refuses line] is the exception that writing [line] raises (a
    [UnicodeEncodeError] when the encoding of the stream lacks one of its
    characters), or [None] when the line is written. *)
Record io : Type := IO {
  stdout : list string;
  requests : list (string * params);
  stdout_refuses : string → option exn
}.

(** State over [io] with exceptions. *)
Definition M (A : Type) : Type := io → io * res A.

Definition ret {A} (a : A) : M A := λ w, (w, Ret a).
Definition raise {A} (e : exn) : M A := λ w, (w, Raise e).
Definition lift {A} (r : res A) : M A := λ w, (w, r).

Definition bind {A B} (m : M A) (k : A → M B) : M B :=
  λ w, match m w with
       | (w', Ret a) => k a w'
       | (w', Raise e) => (w', Raise e)
       end.

(** [try: body except Exception as e: handler(e)] *)
Definition try_except {A} (body : M A) (handler : exn → M A) : M A :=
  λ w, match body w with
       | (w', Ret a) => (w', Ret a)
       | (w', Raise e) => handler e w'
       end.

#[global] Instance M_ret : MRet M := @ret.
#[global] Instance M_bind : MBind M := λ A B k m, bind m k.

(** [print(line)]: the line is written, or the stream raises and nothing
    is written. *)
Definition print (line : string) : M unit :=
  λ w, match stdout_refuses w line with
       | Some e => (w, Raise e)
       | None =>
           ({| stdout := stdout w ++ [line];
               requests := requests w;
               stdout_refuses := stdout_refuses w |},
            Ret tt)
       end.

(** [self.client.audio.transcriptions.create(file=audio, **params)] *)
Definition transcriptions_create (c : sdk_client) (audio : string) (p : params)
    : M response :=
  λ w, ({| stdout := stdout w;
           requests := requests w ++ [(audio, p)];
           stdout_refuses := stdout_refuses w |},
        create c audio p).

(** *** [transcribe] *)

(** The dictionary [params] that [transcribe] builds before the call. *)
Definition transcribe_params (self : t) (language : option string)
    (response_format : string) : params :=
  let initial : params :=
    <["response_format" := response_format]>
      (<["model" := py_or_lit (azure_deployment self) (model self)]> ∅) in
  let with_language : params :=
    match language with
    | Some l => if truthy language then <["language" := l]> initial else initial
    | None => initial
    end in
  let prompt := _build_prompt self in
  match prompt with
  | Some pr =>
      if truthy prompt then <["prompt" := pr]> with_language else with_language
  | None => with_language
  end.

(** [getattr(response, "text", str(response))]: the default is evaluated
    before the lookup. *)
Definition text_or_str (r : response) : res pyval :=
  res_bind (str_of r) (λ s,
    Ret (match text_attr r with Some v => v | None => PStr s end)).

(** The processing of the response by the requested format. *)
Definition process_response (response_format : string) (r : response)
    : res pyval :=
  if String.eqb response_format "json"
     || String.eqb response_format "verbose_json" then
    match model_dump r with
    | Some dumped => dumped
    | None =>
        match as_dict_or_list r with
        | Some v => Ret v
        | None =>
            match json_loads r with
            | Ret v => Ret v
            | Raise _ =>
                res_bind (text_or_str r) (λ v, Ret (PDict [("text", v)]))
            end
        end
    end
  else text_or_str r.

Definition MSG_NOT_FOUND : string := "音声ファイルが見つかりません: ".

(** The [try] block of [transcribe]. *)
Definition transcribe_try (self : t) (fs : filesystem) (audio_file : string)
    (language : option string) (response_format : string) : M pyval :=
  if negb (path_exists fs audio_file) then
    raise (Exn FileNotFoundError (MSG_NOT_FOUND +:+ audio_file))
  else
    let request := transcribe_params self language response_format in
    audio ← lift (open_rb fs audio_file);
    response ← transcriptions_create (client self) audio request;
    lift (process_response response_format response).

(** The [except Exception as e] block of [transcribe]: the [print] is not
    protected, so what it raises leaves [transcribe]. *)
Definition transcribe_except (e : exn) : M pyval :=
  print ("Error occurred during transcription: " +:+ exn_str e);;
  ret (PStr ("Error: " +:+ exn_str e)).

(** [WhisperTranscriber.transcribe] *)
Definition transcribe (self : t) (fs : filesystem) (audio_file : string)
    (language : option string) (response_format : string) : M pyval :=
  try_except (transcribe_try self fs audio_file language response_format)
             transcribe_except.

End WhisperTranscriber.

(** ** [src/gui/resources/labels.py] *)

Module AppLabels.

Definition RECORD_START_BUTTON : string := "録音開始".
Definition RECORD_STOP_BUTTON : string := "録音停止".
Definition STATUS_RECORDING : string := "録音中...".
Definition STATUS_TRANSCRIBING : string := "文字起こし中...".
Definition STATUS_TRANSCRIBED : string := "文字起こしが完了しました".
Definition STATUS_TRANSCRIBED_COPIED : string :=
  "文字起こしが完了し、クリップボードにコピーしました".
Definition ERROR_TITLE : string := "エラー".
Definition ERROR_API_KEY_REQUIRED : string :=
  "先に Azure OpenAI の設定を行ってください".

Definition STATUS_API_KEY_SAVED : string := "APIキーが保存されました".

(** [STATUS_HOTKEY_SET.format(hotkey)] *)
Definition STATUS_HOTKEY_SET (hotkey : string) : string :=
  "ホットキーを " +:+ hotkey +:+ " に設定しました".

(** [STATUS_MODEL_CHANGED.format(model_name)] *)
Definition STATUS_MODEL_CHANGED (model_name : string) : string :=
  "文字起こしモデルを「" +:+ model_name +:+ "」に変更しました".

(** [ERROR_HOTKEY.format(detail)] *)
Definition ERROR_HOTKEY (detail : string) : string :=
  "ホットキー設定エラー: " +:+ detail.

(** [ERROR_TRANSCRIPTION.format(detail)] *)
Definition ERROR_TRANSCRIPTION (detail : string) : string :=
  "文字起こしエラー: " +:+ detail.

Definition ERROR_API_KEY_MISSING : string :=
  "Azure OpenAI の設定が必要です。" +:+ String (Ascii.ascii_of_nat 10) ""
  +:+ "APIキーと Endpoint を入力するか、AZURE_OPENAI_API_KEY / AZURE_OPENAI_ENDPOINT 環境変数を設定してください。".

End AppLabels.

(** ** The audio recorder *)

Module AudioRecorder.

(** Modelled from the spec: [src/core/audio_recorder.py] is missing.  The
    specification gives the interface of the capture collaborator as
    [startRecording()], [stopRecording() -> artifact | none] and
    [isRecording() -> bool]; the recorder is therefore a flag that
    [start_recording] sets and [stop_recording] clears, and what the capture
    yields on stopping (a path, or nothing) is an input from the device. *)
Record t : Type := Make { recording : bool }.

Definition new : t := {| recording := false |}.

Definition is_recording (r : t) : bool := recording r.

Definition start_recording (r : t) : t := {| recording := true |}.

Definition stop_recording (captured : option string) (r : t)
    : t * option string :=
  ({| recording := false |}, captured).

End AudioRecorder.

(** ** [src/gui/windows/main_window.py] *)

Module MainWindow.

(** The modes of the status indicator window. *)
Inductive indicator_mode : Type :=
| MODE_RECORDING
| MODE_TRANSCRIBING
| MODE_TRANSCRIBED.

Inductive sound : Type :=
| StartSound
| StopSound
| CompleteSound.

(** What the window does to its collaborators, in the order of the calls. *)
Inductive effect : Type :=
| RecordButtonSetText (text : string)
| RecorderStart
| RecorderStop (artifact : option string)
| RecordingStatusChanged (is_recording : bool)
| RecordingTimerStart
| RecordingTimerStop
| IndicatorHide
| IndicatorSetMode (mode : indicator_mode)
| IndicatorShow
| StatusBarShowMessage (message : string)
| MessageBoxWarning (title message : string)
| Play (s : sound)
| ThreadStart (audio_file : string) (language : option string)
| TranscriptionSetPlainText (text : string)
| ClipboardSetText (text : string).

#[global] Instance indicator_mode_eq_dec : EqDecision indicator_mode.
Proof. solve_decision. Defined.
#[global] Instance sound_eq_dec : EqDecision sound.
Proof. solve_decision. Defined.
#[global] Instance effect_eq_dec : EqDecision effect.
Proof. solve_decision. Defined.

(** The attributes of the window that recording and transcription read or
    write.  [threads] holds the background transcriptions that were started
    and whose [transcription_complete] signal has not been delivered yet;
    [effects] is the log of calls, oldest first. *)
Record t : Type := Make {
  audio_recorder : AudioRecorder.t;
  whisper_transcriber : option WhisperTranscriber.t;
  show_indicator : bool;
  enable_sound : bool;
  auto_copy : bool;
  (** [self.language_combo.currentData()] *)
  selected_language : option string;
  (** [self.model_combo.currentText()] *)
  model_name : string;
  threads : list (string * option string);
  effects : list effect
}.

Definition set_audio_recorder (r : AudioRecorder.t) (w : t) : t :=
  {| audio_recorder := r;
     whisper_transcriber := whisper_transcriber w;
     show_indicator := show_indicator w;
     enable_sound := enable_sound w;
     auto_copy := auto_copy w;
     selected_language := selected_language w;
     model_name := model_name w;
     threads := threads w;
     effects := effects w |}.

Definition set_threads (ts : list (string * option string)) (w : t) : t :=
  {| audio_recorder := audio_recorder w;
     whisper_transcriber := whisper_transcriber w;
     show_indicator := show_indicator w;
     enable_sound := enable_sound w;
     auto_copy := auto_copy w;
     selected_language := selected_language w;
     model_name := model_name w;
     threads := ts;
     effects := effects w |}.

(** Append calls to the log. *)
Definition does (es : list effect) (w : t) : t :=
  {| audio_recorder := audio_recorder w;
     whisper_transcriber := whisper_transcriber w;
     show_indicator := show_indicator w;
     enable_sound := enable_sound w;
     auto_copy := auto_copy w;
     selected_language := selected_language w;
     model_name := model_name w;
     threads := threads w;
     effects := effects w ++ es |}.

(** The transcriber as [__init__] and [show_api_key_dialog] build it:
    a [ValueError] of the constructor leaves [None]; any other exception
    is not caught there. *)
Definition new_transcriber (p : WhisperTranscriber.process)
    (api_key azure_endpoint api_version azure_deployment : string)
    : res (option WhisperTranscriber.t) :=
  match WhisperTranscriber.__init__ p (Some api_key) (Some azure_endpoint)
          (Some api_version) (Some azure_deployment) with
  | Ret tr => Ret (Some tr)
  | Raise (Exn ValueError _) => Ret None
  | Raise e => Raise e
  end.

Definition play_start_sound (w : t) : t :=
  if enable_sound w then does [Play StartSound] w else w.

Definition play_stop_sound (w : t) : t :=
  if enable_sound w then does [Play StopSound] w else w.

Definition play_complete_sound (w : t) : t :=
  if enable_sound w then does [Play CompleteSound] w else w.

(** [MainWindow.start_recording] *)
Definition start_recording (w : t) : t :=
  match whisper_transcriber w with
  | None =>
      does [MessageBoxWarning AppLabels.ERROR_TITLE
              AppLabels.ERROR_API_KEY_REQUIRED] w
  | Some _ =>
      let w := does [RecordButtonSetText AppLabels.RECORD_STOP_BUTTON] w in
      let w :=
        does [RecorderStart]
          (set_audio_recorder
             (AudioRecorder.start_recording (audio_recorder w)) w) in
      let w := does [RecordingStatusChanged true] w in
      let w := does [RecordingTimerStart] w in
      let w :=
        if show_indicator w then
          does [IndicatorHide; IndicatorSetMode MODE_RECORDING; IndicatorShow] w
        else w in
      let w := does [StatusBarShowMessage AppLabels.STATUS_RECORDING] w in
      play_start_sound w
  end.

(** [MainWindow.start_transcription] *)
Definition start_transcription (audio_file : option string) (w : t) : t :=
  let w := does [StatusBarShowMessage AppLabels.STATUS_TRANSCRIBING] w in
  let w :=
    if show_indicator w then
      does [IndicatorHide; IndicatorSetMode MODE_TRANSCRIBING; IndicatorShow] w
    else w in
  let language := selected_language w in
  match audio_file with
  | Some path =>
      if truthy audio_file then
        does [ThreadStart path language]
          (set_threads (threads w ++ [(path, language)]) w)
      else w
  | None => w
  end.

(** [MainWindow.stop_recording]; [captured] is what the device yields. *)
Definition stop_recording (captured : option string) (w : t) : t :=
  let w := does [RecordButtonSetText AppLabels.RECORD_START_BUTTON] w in
  let '(r, audio_file) :=
    AudioRecorder.stop_recording captured (audio_recorder w) in
  let w := does [RecorderStop audio_file] (set_audio_recorder r w) in
  let w := does [RecordingStatusChanged false] w in
  let w := does [RecordingTimerStop] w in
  let w :=
    if truthy audio_file then
      let w := does [StatusBarShowMessage AppLabels.STATUS_TRANSCRIBING] w in
      start_transcription audio_file w
    else
      does [IndicatorHide] w in
  play_stop_sound w.

(** [MainWindow._toggle_recording_impl] *)
Definition _toggle_recording_impl (captured : option string) (w : t) : t :=
  if AudioRecorder.is_recording (audio_recorder w) then
    stop_recording captured w
  else
    start_recording w.

(** [MainWindow.on_transcription_complete] *)
Definition on_transcription_complete (text : string) (w : t) : t :=
  let w := does [TranscriptionSetPlainText text] w in
  let w :=
    if show_indicator w then
      does [IndicatorSetMode MODE_TRANSCRIBED; IndicatorShow] w
    else w in
  let w :=
    if auto_copy w && truthy (Some text) then
      does [ClipboardSetText text;
            StatusBarShowMessage
              (AppLabels.STATUS_TRANSCRIBED_COPIED
               +:+ " (使用モデル: " +:+ model_name w +:+ ")")] w
    else
      does [StatusBarShowMessage
              (AppLabels.STATUS_TRANSCRIBED
               +:+ " (使用モデル: " +:+ model_name w +:+ ")")] w in
  play_complete_sound w.


(** *** The session seen through the window *)

(** What reaches the GUI thread: a toggle (from the button, the tray or the
    hotkey, queued by [toggle_recording]), carrying what the device would
    yield if this toggle stops a capture; or the [transcription_complete]
    signal of the [k]-th pending background thread with its text. *)
Inductive trigger : Type :=
| Toggle (captured : option string)
| Complete (k : nat) (text : string).

Definition step (w : t) (tr : trigger) : t :=
  match tr with
  | Toggle captured => _toggle_recording_impl captured w
  | Complete k text =>
      match threads w !! k with
      | Some _ => on_transcription_complete text (set_threads (delete k (threads w)) w)
      | None => w
      end
  end.

Definition run (w : t) (trs : list trigger) : t := foldl step w trs.




(** The states of the specification's session, read off the window. *)
Inductive session : Type :=
| Idle
| Recording
| Transcribing.

#[global] Instance session_eq_dec : EqDecision session.
Proof. solve_decision. Defined.

Definition session_state (w : t) : session :=
  if AudioRecorder.is_recording (audio_recorder w) then Recording
  else if bool_decide (threads w = []) then Idle
  else Transcribing.

(** The calls of the log that start a background transcription. *)
Definition is_dispatch (e : effect) : bool :=
  match e with
  | ThreadStart _ _ => true
  | _ => false
  end.


(** The calls of [start_recording] when a service is configured. *)
Definition start_calls (w : t) : list effect :=
  [RecordButtonSetText AppLabels.RECORD_STOP_BUTTON;
   RecorderStart;
   RecordingStatusChanged true;
   RecordingTimerStart]
  ++ (if show_indicator w
      then [IndicatorHide; IndicatorSetMode MODE_RECORDING; IndicatorShow]
      else [])
  ++ [StatusBarShowMessage AppLabels.STATUS_RECORDING]
  ++ (if enable_sound w then [Play StartSound] else []).

(** The background transcriptions that stopping a capture starts. *)
Definition dispatched (captured : option string) (w : t)
    : list (string * option string) :=
  match captured with
  | Some path => if truthy captured then [(path, selected_language w)] else []
  | None => []
  end.

(** The calls of [stop_recording]. *)
Definition stop_calls (captured : option string) (w : t) : list effect :=
  [RecordButtonSetText AppLabels.RECORD_START_BUTTON;
   RecorderStop captured;
   RecordingStatusChanged false;
   RecordingTimerStop]
  ++ (if truthy captured then
        [StatusBarShowMessage AppLabels.STATUS_TRANSCRIBING;
         StatusBarShowMessage AppLabels.STATUS_TRANSCRIBING]
        ++ (if show_indicator w
            then [IndicatorHide; IndicatorSetMode MODE_TRANSCRIBING;
                  IndicatorShow]
            else [])
        ++ map (λ job, ThreadStart job.1 job.2) (dispatched captured w)
      else [IndicatorHide])
  ++ (if enable_sound w then [Play StopSound] else []).

(** The calls of [on_transcription_complete]. *)
Definition complete_calls (text : string) (w : t) : list effect :=
  [TranscriptionSetPlainText text]
  ++ (if show_indicator w
      then [IndicatorSetMode MODE_TRANSCRIBED; IndicatorShow]
      else [])
  ++ (if auto_copy w && truthy (Some text) then
        [ClipboardSetText text;
         StatusBarShowMessage
           (AppLabels.STATUS_TRANSCRIBED_COPIED
            +:+ " (使用モデル: " +:+ model_name w +:+ ")")]
      else
        [StatusBarShowMessage
           (AppLabels.STATUS_TRANSCRIBED
            +:+ " (使用モデル: " +:+ model_name w +:+ ")")])
  ++ (if enable_sound w then [Play CompleteSound] else []).

(** *** Tactics for the handlers *)

(** Unfolds the handlers down to the log and the recorder. *)
Ltac unfold_handlers :=
  cbv beta iota zeta delta
    [step _toggle_recording_impl start_recording stop_recording
     start_transcription on_transcription_complete play_start_sound
     play_stop_sound play_complete_sound does set_audio_recorder set_threads
     AudioRecorder.is_recording AudioRecorder.stop_recording
     AudioRecorder.start_recording AudioRecorder.recording
     audio_recorder whisper_transcriber show_indicator enable_sound
     auto_copy selected_language model_name threads effects andb] in *.

(** Runs a handler on a window given by its fields, splitting on the
    truth value of each optional string met on the way. *)
Ltac run_handler :=
  unfold_handlers;
  repeat match goal with
         | |- context [truthy ?o] => destruct (truthy o) eqn:?; unfold_handlers
         end;
  rewrite <- ?app_assoc; try done.

End MainWindow.

(** ** Concrete worlds used to exercise the definitions *)

Module Demo.

Import WhisperTranscriber.

(** A response of the SDK in the plain-text formats: an object with a
    [text] attribute. *)
Definition text_response (text : string) : response :=
  {| model_dump := None;
     as_dict_or_list := None;
     json_loads := Raise (Exn (OtherException "TypeError") "not JSON");
     text_attr := Some (PStr text);
     str_of := Ret text |}.

(** An endpoint that answers every request with the same transcript. *)
Definition answering (k e : option string) (v : string) : sdk_client :=
  {| client_api_key := k;
     client_azure_endpoint := e;
     client_api_version := v;
     create := λ _ _, Ret (text_response "hello world") |}.

(** An endpoint whose every call fails with a connection error. *)
Definition unreachable (k e : option string) (v : string) : sdk_client :=
  {| client_api_key := k;
     client_azure_endpoint := e;
     client_api_version := v;
     create := λ _ _,
       Raise (Exn (OtherException "APIConnectionError") "Connection error.") |}.

(** A process with the SDK installed and the given environment. *)
Definition with_sdk (env : gmap string string) : process :=
  {| environ := env; AzureOpenAI := Some (λ k e v, Ret (answering k e v)) |}.

(** A process whose [openai] package has no [AzureOpenAI]. *)
Definition without_sdk (env : gmap string string) : process :=
  {| environ := env; AzureOpenAI := None |}.

(** A configured service with a vocabulary, instructions and a
    deployment name. *)
Definition service : t :=
  {| api_key := Some "key";
     azure_endpoint := Some "https://example.openai.azure.com/";
     api_version := DEFAULT_API_VERSION;
     azure_deployment := Some "my-deployment";
     client :=
       answering (Some "key") (Some "https://example.openai.azure.com/")
                 DEFAULT_API_VERSION;
     model := "whisper-1";
     custom_vocabulary := ["Kubernetes"; "gRPC"];
     system_instructions := ["Remove filler words"] |}.

(** The same service behind an endpoint that cannot be reached. *)
Definition offline_service : t :=
  {| api_key := Some "key";
     azure_endpoint := Some "https://example.openai.azure.com/";
     api_version := DEFAULT_API_VERSION;
     azure_deployment := None;
     client :=
       unreachable (Some "key") (Some "https://example.openai.azure.com/")
                   DEFAULT_API_VERSION;
     model := "whisper-1";
     custom_vocabulary := [];
     system_instructions := [] |}.

Definition disk : filesystem := {[ "rec.wav" := Readable "RIFF" ]}.

(** A process whose standard output takes every line. *)
Definition quiet : io :=
  {| stdout := []; requests := []; stdout_refuses := λ _, None |}.

(** A process whose standard output has the [ascii] encoding. *)
Definition ascii_terminal : io :=
  {| stdout := []; requests := []; stdout_refuses := ascii_encode_error |}.

(** A disk on which the recording exists but cannot be opened. *)
Definition locked_disk : filesystem :=
  {[ "録音.wav" :=
       Unreadable (Exn (OtherException "PermissionError")
                     "[Errno 13] Permission denied: '録音.wav'") ]}.

(** A window right after construction, with the service configured. *)
Definition fresh_window : MainWindow.t :=
  {| MainWindow.audio_recorder := AudioRecorder.new;
     MainWindow.whisper_transcriber := Some service;
     MainWindow.show_indicator := true;
     MainWindow.enable_sound := true;
     MainWindow.auto_copy := true;
     MainWindow.selected_language := Some "";
     MainWindow.model_name := "GPT-4o Transcribe";
     MainWindow.threads := [];
     MainWindow.effects := [] |}.

(** The window while a capture is running. *)
Definition recording_window : MainWindow.t :=
  MainWindow.run fresh_window [MainWindow.Toggle None].


End Demo.

(** ** The response formats *)

Module ResponseFormat.

(** The test of [transcribe] for the formats answered with a mapping:
    [response_format == "json" or response_format == "verbose_json"]. *)
Definition structured (fmt : string) : bool :=
  String.eqb fmt "json" || String.eqb fmt "verbose_json".

End ResponseFormat.
Import ResponseFormat.

(** ** [main_window.py]: the background transcription *)

Module Background.

(** [MainWindow.perform_transcription], run by the background thread.
    [whisper_transcriber] is the attribute of the window as the thread finds
    it: [None] when no service is configured by then, and the attribute
    lookup [None.transcribe] raises [AttributeError] inside the [try].
    [emit v] is the outcome of [self.transcription_complete.emit(v)]; the
    signal is declared as [pyqtSignal(str)], and what the binding does with
    another value is left to [emit].  The result lists the values whose
    emission went through. *)
Definition perform_transcription (emit : pyval → res unit)
    (whisper_transcriber : option WhisperTranscriber.t)
    (fs : WhisperTranscriber.filesystem)
    (audio_file : string) (language : option string)
    (w : WhisperTranscriber.io) : WhisperTranscriber.io * res (list pyval) :=
  let '(w', result) :=
    match whisper_transcriber with
    | Some transcriber =>
        WhisperTranscriber.transcribe transcriber fs audio_file language
          "text" w
    | None =>
        (w, Raise (Exn (OtherException "AttributeError")
                     "'NoneType' object has no attribute 'transcribe'"))
    end in
  match res_bind result (λ v, res_bind (emit v) (λ _, Ret [v])) with
  | Ret delivered => (w', Ret delivered)
  | Raise e =>
      let message := PStr (AppLabels.ERROR_TRANSCRIPTION (exn_str e)) in
      (w', res_bind (emit message) (λ _, Ret [message]))
  end.

End Background.

(** ** [main_window.py]: settings, credentials and the model selection *)

Module Preferences.

(** The credentials held by the window, the persisted settings (the keys
    used here hold strings) and the window itself.  Status bar messages go
    to the window's log, which records the message and not its display
    time. *)
Record t : Type := Make {
  api_key : string;
  azure_endpoint : string;
  azure_api_version : string;
  azure_deployment : string;
  settings : gmap string string;
  window : MainWindow.t
}.

Definition set_window (w : MainWindow.t) (a : t) : t :=
  {| api_key := api_key a;
     azure_endpoint := azure_endpoint a;
     azure_api_version := azure_api_version a;
     azure_deployment := azure_deployment a;
     settings := settings a;
     window := w |}.

Definition set_settings (st : gmap string string) (a : t) : t :=
  {| api_key := api_key a;
     azure_endpoint := azure_endpoint a;
     azure_api_version := azure_api_version a;
     azure_deployment := azure_deployment a;
     settings := st;
     window := window a |}.

Definition set_whisper_transcriber (tr : option WhisperTranscriber.t)
    (w : MainWindow.t) : MainWindow.t :=
  {| MainWindow.audio_recorder := MainWindow.audio_recorder w;
     MainWindow.whisper_transcriber := tr;
     MainWindow.show_indicator := MainWindow.show_indicator w;
     MainWindow.enable_sound := MainWindow.enable_sound w;
     MainWindow.auto_copy := MainWindow.auto_copy w;
     MainWindow.selected_language := MainWindow.selected_language w;
     MainWindow.model_name := MainWindow.model_name w;
     MainWindow.threads := MainWindow.threads w;
     MainWindow.effects := MainWindow.effects w |}.

(** [self.settings.value(key, default)] *)
Definition value (st : gmap string string) (key default : string) : string :=
  match st !! key with
  | Some v => v
  | None => default
  end.

(** The defaults of [AppConfig] for the four credentials. *)
Definition DEFAULT_API_KEY : string := "".
Definition DEFAULT_AZURE_OPENAI_ENDPOINT : string := "".
Definition DEFAULT_AZURE_OPENAI_API_VERSION : string := "2024-02-15-preview".
Definition DEFAULT_AZURE_OPENAI_DEPLOYMENT : string := "".

(** The transcriber that [MainWindow.__init__] builds from the persisted
    settings (the four [settings.value] reads and the [try] around the
    constructor). *)
Definition transcriber_at_startup (p : WhisperTranscriber.process)
    (st : gmap string string) : res (option WhisperTranscriber.t) :=
  MainWindow.new_transcriber p
    (value st "api_key" DEFAULT_API_KEY)
    (value st "azure_endpoint" DEFAULT_AZURE_OPENAI_ENDPOINT)
    (value st "azure_api_version" DEFAULT_AZURE_OPENAI_API_VERSION)
    (value st "azure_deployment" DEFAULT_AZURE_OPENAI_DEPLOYMENT).

(** The test of [MainWindow.__init__] that opens the credentials dialog:
    [if not self.api_key or not self.azure_endpoint]. *)
Definition dialog_at_startup (st : gmap string string) : bool :=
  negb (truthy (Some (value st "api_key" DEFAULT_API_KEY)))
  || negb (truthy (Some (value st "azure_endpoint"
                           DEFAULT_AZURE_OPENAI_ENDPOINT))).

(** What the credentials dialog hands back when it is accepted: the
    results of [get_api_key], [get_endpoint], [get_api_version] and
    [get_deployment]. *)
Record dialog_result : Type := Accepted {
  entered_api_key : string;
  entered_endpoint : string;
  entered_api_version : string;
  entered_deployment : string
}.

(** [MainWindow.show_api_key_dialog]; [dialog] is [None] when the dialog is
    rejected.  The attributes and the settings are written before the
    constructor runs, so they are kept when it raises. *)
Definition show_api_key_dialog (p : WhisperTranscriber.process)
    (dialog : option dialog_result) (a : t) : t * res unit :=
  match dialog with
  | None => (a, Ret tt)
  | Some d =>
      let a :=
        {| api_key := entered_api_key d;
           azure_endpoint := entered_endpoint d;
           azure_api_version := entered_api_version d;
           azure_deployment := entered_deployment d;
           settings :=
             <["azure_deployment" := entered_deployment d]>
               (<["azure_api_version" := entered_api_version d]>
                  (<["azure_endpoint" := entered_endpoint d]>
                     (<["api_key" := entered_api_key d]> (settings a))));
           window := window a |} in
      match WhisperTranscriber.__init__ p (Some (api_key a))
              (Some (azure_endpoint a)) (Some (azure_api_version a))
              (Some (azure_deployment a)) with
      | Ret tr =>
          (set_window
             (MainWindow.does
                [MainWindow.StatusBarShowMessage AppLabels.STATUS_API_KEY_SAVED]
                (set_whisper_transcriber (Some tr) (window a))) a,
           Ret tt)
      | Raise (Exn ValueError _) =>
          (set_window
             (MainWindow.does
                [MainWindow.MessageBoxWarning AppLabels.ERROR_TITLE
                   AppLabels.ERROR_API_KEY_MISSING]
                (set_whisper_transcriber None (window a))) a,
           Ret tt)
      | Raise e => (a, Raise e)
      end
  end.

(** [MainWindow.on_model_changed]; [model_id] is
    [self.model_combo.currentData()]. *)
Definition on_model_changed (model_id : option string) (a : t) : t :=
  match model_id, MainWindow.whisper_transcriber (window a) with
  | Some id, Some tr =>
      if truthy model_id then
        let w :=
          set_whisper_transcriber
            (Some (WhisperTranscriber.set_model tr id)) (window a) in
        let a := set_settings (<["model" := id]> (settings a)) a in
        set_window
          (MainWindow.does
             [MainWindow.StatusBarShowMessage
                (AppLabels.STATUS_MODEL_CHANGED (MainWindow.model_name w))] w)
          a
      else a
  | _, _ => a
  end.

(** [MainWindow.show_vocabulary_dialog]; [dialog] is [None] when the
    dialog is rejected and otherwise its [get_vocabulary()]. *)
Definition STATUS_VOCABULARY_ADDED (n : nat) : string :=
  pretty n +:+ "個の語彙を追加しました".

Definition show_vocabulary_dialog (dialog : option (list string))
    (w : MainWindow.t) : MainWindow.t :=
  match MainWindow.whisper_transcriber w with
  | None =>
      MainWindow.does
        [MainWindow.MessageBoxWarning AppLabels.ERROR_TITLE
           AppLabels.ERROR_API_KEY_REQUIRED] w
  | Some tr =>
      match dialog with
      | Some new_vocabulary =>
          let tr := WhisperTranscriber.clear_custom_vocabulary tr in
          let tr :=
            WhisperTranscriber.add_custom_vocabulary tr
              (WhisperTranscriber.Many new_vocabulary) in
          MainWindow.does
            [MainWindow.StatusBarShowMessage
               (STATUS_VOCABULARY_ADDED (length new_vocabulary))]
            (set_whisper_transcriber (Some tr) w)
      | None => w
      end
  end.

End Preferences.

(** ** [main_window.py]: the global hotkey *)

Module Hotkeys.

(** The calls of the two hotkey handlers, in order. *)
Inductive call : Type :=
| StopListener
| RegisterHotkey (hotkey : string)
| Print (line : string)
| StatusBarShowMessage (message : string) (msec : nat)
| SettingsSetValue (key value : string).

#[global] Instance call_eq_dec : EqDecision call.
Proof. solve_decision. Defined.

Record t : Type := Make {
  hotkey : string;
  calls : list call
}.

Definition does (cs : list call) (w : t) : t :=
  {| hotkey := hotkey w; calls := calls w ++ cs |}.

(** [MainWindow.setup_global_hotkey].  [outcome] is what
    [self.hotkey_manager.register_hotkey(self.hotkey, self.toggle_recording)]
    does on this call: the hotkey manager is outside the sources, so its
    answer ([True], [False] or an exception) is an input. *)
Definition setup_global_hotkey (outcome : res bool) (w : t) : t * bool :=
  let w := does [RegisterHotkey (hotkey w)] w in
  let attempt : t * res unit :=
    match outcome with
    | Ret true =>
        (does [Print ("Hotkey '" +:+ hotkey w
                      +:+ "' has been set successfully")] w,
         Ret tt)
    | Ret false =>
        (w, Raise (Exn ValueError
                     ("Failed to register hotkey: " +:+ hotkey w)))
    | Raise e => (w, Raise e)
    end in
  match attempt with
  | (w, Ret _) => (w, true)
  | (w, Raise e) =>
      (does [Print ("Hotkey setup error: " +:+ exn_str e);
             StatusBarShowMessage (AppLabels.ERROR_HOTKEY (exn_str e)) 5000]
         w,
       false)
  end.

(** [MainWindow.show_hotkey_dialog].  [dialog] is [None] when the dialog is
    rejected and otherwise its [get_hotkey()]. *)
Definition show_hotkey_dialog (dialog : option (option string))
    (outcome : res bool) (w : t) : t :=
  let w := does [StopListener] w in
  match dialog with
  | Some new_hotkey =>
      match new_hotkey with
      | Some h =>
          if truthy new_hotkey then
            let w := {| hotkey := h; calls := calls w |} in
            let w := does [SettingsSetValue "hotkey" (hotkey w)] w in
            let w := (setup_global_hotkey outcome w).1 in
            does [StatusBarShowMessage
                    (AppLabels.STATUS_HOTKEY_SET (hotkey w)) 3000] w
          else w
      | None => w
      end
  | None => (setup_global_hotkey outcome w).1
  end.

(** The hotkeys whose registration was attempted, oldest first. *)
Definition registrations (cs : list call) : list string :=
  omap (λ c, match c with RegisterHotkey h => Some h | _ => None end) cs.


End Hotkeys.

(** ** [main_window.py]: the recording timer *)

Module RecordingTimer.

(** [f"{n:02d}"]: at least two characters, padded with a zero. *)
Definition format_02d (n : Z) : string :=
  if bool_decide (0 ≤ n < 10)%Z then "0" +:+ pretty n else pretty n.

(** The label computed by [update_recording_time] from
    [elapsed = int(time.time() - self.recording_start_time)]. *)
Definition time_str (elapsed : Z) : string :=
  let minutes := (elapsed `div` 60)%Z in
  let seconds := (elapsed `mod` 60)%Z in
  format_02d minutes +:+ ":" +:+ format_02d seconds.

(** [MainWindow.update_recording_time]: the text set on both timer
    labels, or [None] when no capture runs and nothing is updated. *)
Definition update_recording_time (w : MainWindow.t) (elapsed : Z)
    : option string :=
  if AudioRecorder.is_recording (MainWindow.audio_recorder w)
  then Some (time_str elapsed)
  else None.

End RecordingTimer.

(** * Properties *)

Section PythonPrelude.

Lemma prefix_app (p s : string) : startswith (p +:+ s) p = true.
Proof.
  unfold startswith. induction p as [|a p IH]; simpl.
  - by destruct s.
  - destruct (Ascii.ascii_dec a a); [exact IH | done].
Qed.

Lemma truthy_Some (s : string) : truthy (Some s) = true ↔ s ≠ "".
Proof.
  simpl. destruct (String.eqb_spec s ""); simpl; split; intros; congruence.
Qed.

Lemma truthy_false (o : option string) :
  truthy o = false ↔ o = None ∨ o = Some "".
Proof.
  destruct o as [s|]; simpl.
  - destruct (String.eqb_spec s "") as [-> | Hne]; simpl.
    + split; [intros _; by right | done].
    + split; [done | intros [H | H]; congruence].
  - split; [intros _; by left | done].
Qed.

Lemma py_or_lit_truthy (s d : string) : s ≠ "" → py_or_lit (Some s) d = s.
Proof.
  intros Hs. simpl. by destruct (String.eqb_spec s "").
Qed.

Lemma py_or_lit_falsy (o : option string) (d : string) :
  truthy o = false → py_or_lit o d = d.
Proof.
  intros [-> | ->]%truthy_false; done.
Qed.

Lemma py_or_lit_nonempty (o : option string) (d : string) :
  d ≠ "" → py_or_lit o d ≠ "".
Proof.
  intros Hd. destruct o as [s|]; simpl; [|done].
  by destruct (String.eqb_spec s "").
Qed.

(** [join] on a list of at least two strings, as [str.join] concatenates. *)
Lemma join_cons (sep x y : string) (rest : list string) :
  join sep (x :: y :: rest) = x +:+ sep +:+ join sep (y :: rest).
Proof. done. Qed.

End PythonPrelude.

Section Prompt.

Import WhisperTranscriber.

Lemma prompt_parts_cases (self : t) :
  prompt_parts self =
    match custom_vocabulary self, system_instructions self with
    | [], [] => []
    | _ :: _, [] => ["Vocabulary: " +:+ join ", " (custom_vocabulary self)]
    | [], _ :: _ => ["Instructions: " +:+ join ". " (system_instructions self)]
    | _ :: _, _ :: _ =>
        ["Vocabulary: " +:+ join ", " (custom_vocabulary self);
         "Instructions: " +:+ join ". " (system_instructions self)]
    end.
Proof.
  unfold prompt_parts.
  destruct (custom_vocabulary self), (system_instructions self); done.
Qed.

(** A prompt, when there is one, is never the empty string. *)
Lemma build_prompt_nonempty (self : t) (s : string) :
  _build_prompt self = Some s → s ≠ "".
Proof.
  unfold _build_prompt. rewrite prompt_parts_cases.
  destruct (custom_vocabulary self), (system_instructions self);
    simpl; intros [= <-]; done.
Qed.

Lemma build_prompt_truthy (self : t) :
  truthy (_build_prompt self) = bool_decide (is_Some (_build_prompt self)).
Proof.
  destruct (_build_prompt self) as [s|] eqn:E.
  - apply build_prompt_nonempty in E. apply truthy_Some in E. rewrite E.
    symmetry. apply bool_decide_eq_true. eauto.
  - symmetry. apply bool_decide_eq_false. by intros [? ?].
Qed.

(** C4. [_build_prompt] depends on the two stores only; with a non-empty
    vocabulary it emits ["Vocabulary: "] and the terms joined by [", "],
    with non-empty instructions ["Instructions: "] and the instructions
    joined by [". "]; the segments present are joined by one space; with
    both stores empty the result is [None], which is not the empty string;
    and the vocabulary Kubernetes, gRPC with the instruction "Remove filler
    words" gives the prompt of the specification's first scenario. *)
Theorem build_prompt_spec :
  (∀ self self' : t,
     custom_vocabulary self = custom_vocabulary self' ∧
     system_instructions self = system_instructions self' →
     _build_prompt self = _build_prompt self')
  ∧ (∀ self : t,
       _build_prompt self =
         match custom_vocabulary self, system_instructions self with
         | [], [] => None
         | v :: vs, [] => Some ("Vocabulary: " +:+ join ", " (v :: vs))
         | [], i :: more => Some ("Instructions: " +:+ join ". " (i :: more))
         | v :: vs, i :: more =>
             Some (("Vocabulary: " +:+ join ", " (v :: vs))
                   +:+ " " +:+
                   ("Instructions: " +:+ join ". " (i :: more)))
         end)
  ∧ (∀ self : t,
       custom_vocabulary self = [] ∧ system_instructions self = [] →
       _build_prompt self = None ∧ _build_prompt self ≠ Some "")
  ∧ (∀ self : t,
       custom_vocabulary self = ["Kubernetes"; "gRPC"] ∧
       system_instructions self = ["Remove filler words"] →
       _build_prompt self =
         Some "Vocabulary: Kubernetes, gRPC Instructions: Remove filler words").
Proof.
  assert (Hcases : ∀ self : t,
       _build_prompt self =
         match custom_vocabulary self, system_instructions self with
         | [], [] => None
         | v :: vs, [] => Some ("Vocabulary: " +:+ join ", " (v :: vs))
         | [], i :: more => Some ("Instructions: " +:+ join ". " (i :: more))
         | v :: vs, i :: more =>
             Some (("Vocabulary: " +:+ join ", " (v :: vs))
                   +:+ " " +:+
                   ("Instructions: " +:+ join ". " (i :: more)))
         end).
  { intros self. unfold _build_prompt. rewrite prompt_parts_cases.
    destruct (custom_vocabulary self), (system_instructions self); done. }
  split_and!.
  - intros self self' [Hv Hi]. by rewrite !Hcases, Hv, Hi.
  - exact Hcases.
  - intros self [Hv Hi]. by rewrite Hcases, Hv, Hi.
  - intros self [Hv Hi]. by rewrite Hcases, Hv, Hi.
Qed.

(** The four clauses of [build_prompt_spec] at the demonstration service
    and at the same service with both stores cleared. *)
Lemma build_prompt_spec_witness :
  _build_prompt Demo.service =
    Some "Vocabulary: Kubernetes, gRPC Instructions: Remove filler words"
  ∧ _build_prompt
      (clear_system_instructions (clear_custom_vocabulary Demo.service)) = None
  ∧ _build_prompt (set_model Demo.service "gpt-4o-transcribe") =
      _build_prompt Demo.service.
Proof.
  destruct build_prompt_spec as (Hdet & _ & Hnone & Hscenario).
  split; [| split].
  - apply Hscenario. split; reflexivity.
  - apply Hnone. split; reflexivity.
  - apply Hdet. split; reflexivity.
Defined.

End Prompt.

Section Request.

Import WhisperTranscriber.

Lemma params_model (self : t) (language : option string) (fmt : string) :
  transcribe_params self language fmt !! "model" =
    Some (py_or_lit (azure_deployment self) (model self)).
Proof.
  unfold transcribe_params.
  destruct (_build_prompt self) as [pr|], language as [l|];
    repeat case_match; by simplify_map_eq.
Qed.

Lemma params_response_format (self : t) (language : option string)
    (fmt : string) :
  transcribe_params self language fmt !! "response_format" = Some fmt.
Proof.
  unfold transcribe_params.
  destruct (_build_prompt self) as [pr|], language as [l|];
    repeat case_match; by simplify_map_eq.
Qed.

Lemma params_language (self : t) (language : option string) (fmt : string) :
  transcribe_params self language fmt !! "language" =
    if truthy language then language else None.
Proof.
  unfold transcribe_params.
  destruct (_build_prompt self) as [pr|], language as [l|];
    repeat case_match; by simplify_map_eq.
Qed.

Lemma params_prompt (self : t) (language : option string) (fmt : string) :
  transcribe_params self language fmt !! "prompt" = _build_prompt self.
Proof.
  unfold transcribe_params.
  destruct (_build_prompt self) as [pr|] eqn:E; [|destruct language as [l|];
    repeat case_match; by simplify_map_eq].
  apply build_prompt_nonempty, truthy_Some in E. rewrite E.
  by simplify_map_eq.
Qed.

(** What the [except] block makes of an exception: the stream takes the
    line and the error string is returned, or the stream raises and that
    exception leaves the block. *)
Lemma transcribe_except_result (e : exn) (w : io) :
  transcribe_except e w =
    match stdout_refuses w ("Error occurred during transcription: "
                            +:+ exn_str e) with
    | Some e' => (w, Raise e')
    | None =>
        ({| stdout := stdout w ++ ["Error occurred during transcription: "
                                   +:+ exn_str e];
            requests := requests w;
            stdout_refuses := stdout_refuses w |},
         Ret (PStr ("Error: " +:+ exn_str e)))
    end.
Proof.
  unfold transcribe_except, print, mbind, M_bind, bind, ret.
  by destruct (stdout_refuses w _).
Qed.

(** The [except] block sends nothing. *)
Lemma transcribe_except_requests (e : exn) (w : io) :
  requests (transcribe_except e w).1 = requests w.
Proof.
  rewrite transcribe_except_result. by destruct (stdout_refuses w _).
Qed.

(** The [try] block prints nothing and leaves the stream as it is; it sends
    one request exactly when the file can be read. *)
Lemma transcribe_try_io (self : t) (fs : filesystem) (audio_file : string)
    (language : option string) (fmt : string) (w : io) :
  (transcribe_try self fs audio_file language fmt w).1 =
    {| stdout := stdout w;
       requests := requests w ++
         match fs !! audio_file with
         | Some (Readable content) =>
             [(content, transcribe_params self language fmt)]
         | _ => []
         end;
       stdout_refuses := stdout_refuses w |}.
Proof.
  unfold transcribe_try, path_exists, open_rb.
  destruct w as [out sent refuses].
  destruct (fs !! audio_file) as [[content|e]|] eqn:E.
  - rewrite (bool_decide_eq_true_2 _ (mk_is_Some _ _ eq_refl)). simpl.
    unfold mbind, M_bind, bind, lift, transcriptions_create. simpl.
    destruct (create _ _ _) as [r|e]; simpl; [|done].
    by destruct (process_response fmt r).
  - rewrite (bool_decide_eq_true_2 _ (mk_is_Some _ _ eq_refl)). simpl.
    by rewrite app_nil_r.
  - rewrite (bool_decide_eq_false_2 _ is_Some_None). simpl.
    by rewrite app_nil_r.
Qed.

(** The requests of one call of [transcribe] are those of its [try] block. *)
Lemma transcribe_requests (self : t) (fs : filesystem) (audio_file : string)
    (language : option string) (fmt : string) (w : io) :
  requests (transcribe self fs audio_file language fmt w).1 =
    requests (transcribe_try self fs audio_file language fmt w).1.
Proof.
  unfold transcribe, try_except.
  destruct (transcribe_try self fs audio_file language fmt w) as [w' [v|e]];
    [done|].
  apply transcribe_except_requests.
Qed.

(** With a readable file exactly one request is sent, whatever happens
    afterwards. *)
Lemma transcribe_sends (self : t) (fs : filesystem) (audio_file content : string)
    (language : option string) (fmt : string) (w : io) :
  fs !! audio_file = Some (Readable content) →
  requests (transcribe self fs audio_file language fmt w).1 =
    requests w ++ [(content, transcribe_params self language fmt)].
Proof.
  intros Hfile. rewrite transcribe_requests, transcribe_try_io.
  by rewrite Hfile.
Qed.

(** Without a readable file nothing is sent. *)
Lemma transcribe_sends_nothing (self : t) (fs : filesystem)
    (audio_file : string) (language : option string) (fmt : string) (w : io) :
  (∀ content, fs !! audio_file ≠ Some (Readable content)) →
  requests (transcribe self fs audio_file language fmt w).1 = requests w.
Proof.
  intros Hfile. rewrite transcribe_requests, transcribe_try_io. simpl.
  destruct (fs !! audio_file) as [[content|e]|] eqn:E;
    [by destruct (Hfile content) | by rewrite app_nil_r ..].
Qed.

(** C5. In the request that [transcribe] sends, the [model] field is the
    deployment name whenever one is configured (not [None], not empty),
    whatever the selected model id; the selected model id is used only when
    no deployment name is configured. *)
Theorem deployment_takes_precedence (self : t) (fs : filesystem)
    (audio_file content : string) (language : option string) (fmt : string)
    (w : io) :
  fs !! audio_file = Some (Readable content) →
  ∃ request : params,
    requests (transcribe self fs audio_file language fmt w).1 =
      requests w ++ [(content, request)]
    ∧ (∀ d, azure_deployment self = Some d → d ≠ "" →
         request !! "model" = Some d)
    ∧ (azure_deployment self = None ∨ azure_deployment self = Some "" →
         request !! "model" = Some (model self)).
Proof.
  intros Hfile. exists (transcribe_params self language fmt). split_and!.
  - by apply transcribe_sends.
  - intros d Hd Hne. by rewrite params_model, Hd, py_or_lit_truthy.
  - intros Hnone. rewrite params_model, py_or_lit_falsy; [done|].
    by apply truthy_false.
Qed.

(** The demonstration service has both a deployment name and a model id:
    the request carries the deployment name. *)
Lemma deployment_takes_precedence_witness :
  ∃ request : params,
    requests (transcribe Demo.service Demo.disk "rec.wav" (Some "en") "text"
                Demo.quiet).1 = [("RIFF", request)]
    ∧ request !! "model" = Some "my-deployment".
Proof.
  destruct (deployment_takes_precedence Demo.service Demo.disk "rec.wav"
              "RIFF" (Some "en") "text" Demo.quiet eq_refl)
    as (request & Hsent & Hdep & _).
  exists request. split; [exact Hsent|].
  apply Hdep; [reflexivity | discriminate].
Defined.

(** C9. The request that [transcribe] sends has a [language] field exactly
    when the language argument is a non-empty string (and then it is that
    string), and a [prompt] field exactly when [_build_prompt] returns a
    prompt (and then it is that prompt). *)
Theorem optional_request_fields (self : t) (fs : filesystem)
    (audio_file content : string) (language : option string) (fmt : string)
    (w : io) :
  fs !! audio_file = Some (Readable content) →
  ∃ request : params,
    requests (transcribe self fs audio_file language fmt w).1 =
      requests w ++ [(content, request)]
    ∧ (is_Some (request !! "language") ↔ ∃ l, language = Some l ∧ l ≠ "")
    ∧ (∀ l, request !! "language" = Some l → language = Some l)
    ∧ (is_Some (request !! "prompt") ↔ is_Some (_build_prompt self))
    ∧ request !! "prompt" = _build_prompt self.
Proof.
  intros Hfile. exists (transcribe_params self language fmt). split_and!.
  - by apply transcribe_sends.
  - rewrite params_language. destruct (truthy language) eqn:E.
    + destruct language as [l|]; [|done]. apply truthy_Some in E.
      split; eauto.
    + split; [by intros [? ?]|]. intros (l & -> & Hne).
      apply truthy_Some in Hne. congruence.
  - intros l. rewrite params_language.
    by destruct (truthy language).
  - by rewrite params_prompt.
  - apply params_prompt.
Qed.

(** With the empty string as language (automatic detection) and both
    stores empty, the request has neither field; with a language and the
    stores of the demonstration service it has both. *)
Lemma optional_request_fields_witness :
  (∃ request : params,
     requests (transcribe Demo.offline_service Demo.disk "rec.wav" (Some "")
                 "text" Demo.quiet).1 = [("RIFF", request)]
     ∧ request !! "language" = None ∧ request !! "prompt" = None)
  ∧ (∃ request : params,
       requests (transcribe Demo.service Demo.disk "rec.wav" (Some "ja")
                   "text" Demo.quiet).1 = [("RIFF", request)]
       ∧ request !! "language" = Some "ja"
       ∧ is_Some (request !! "prompt")).
Proof.
  split.
  - destruct (optional_request_fields Demo.offline_service Demo.disk "rec.wav"
                "RIFF" (Some "") "text" Demo.quiet eq_refl)
      as (request & Hsent & Hlang & _ & _ & Hprompt).
    exists request. split_and!; [exact Hsent | | exact Hprompt].
    destruct (request !! "language") as [l|] eqn:E; [|done].
    destruct Hlang as [Hlang _]. destruct Hlang as (l' & [= <-] & Hne); eauto.
    done.
  - destruct (optional_request_fields Demo.service Demo.disk "rec.wav"
                "RIFF" (Some "ja") "text" Demo.quiet eq_refl)
      as (request & Hsent & Hlang & Hval & Hprompt & _).
    exists request. split_and!; [exact Hsent | | ].
    + destruct Hlang as [_ Hlang]. destruct Hlang as [l Hl]; [by eexists|].
      by rewrite Hl, (Hval l Hl).
    + apply Hprompt. by eexists.
Defined.

End Request.

Section Transcribe.

Import WhisperTranscriber.

(** [transcribe] in every case: the value of its [try] block; or, after an
    exception [e] of the block, the error string when the stream takes the
    log line, and the exception of the stream when it does not. *)
Lemma transcribe_outcome (self : t) (fs : filesystem) (audio_file : string)
    (language : option string) (fmt : string) (w : io) :
  transcribe self fs audio_file language fmt w =
    match transcribe_try self fs audio_file language fmt w with
    | (w', Ret v) => (w', Ret v)
    | (w', Raise e) =>
        match stdout_refuses w' ("Error occurred during transcription: "
                                 +:+ exn_str e) with
        | Some e' => (w', Raise e')
        | None =>
            ({| stdout := stdout w' ++ ["Error occurred during transcription: "
                                        +:+ exn_str e];
                requests := requests w';
                stdout_refuses := stdout_refuses w' |},
             Ret (PStr ("Error: " +:+ exn_str e)))
        end
    end.
Proof.
  unfold transcribe, try_except.
  destruct (transcribe_try self fs audio_file language fmt w) as [w' [v|e]];
    [done|].
  apply transcribe_except_result.
Qed.

(** The bytes of a concatenation. *)
Lemma list_ascii_of_string_app (s1 s2 : string) :
  String.list_ascii_of_string (s1 +:+ s2) =
    String.list_ascii_of_string s1 ++ String.list_ascii_of_string s2.
Proof.
  induction s1 as [|c s1 IH]; [done|].
  change (String c s1 +:+ s2) with (String c (s1 +:+ s2)).
  simpl. by rewrite IH.
Qed.

(** The log line of a missing file cannot be encoded in ASCII, whatever the
    path: the not-found message is Japanese, and its fourteen characters
    before the colon are the first run outside ASCII. *)
Lemma not_found_line_refused (audio_file : string) :
  ascii_encode_error ("Error occurred during transcription: "
                      +:+ MSG_NOT_FOUND +:+ audio_file) =
    Some (Exn (OtherException "UnicodeEncodeError")
            "'ascii' codec can't encode characters in position 37-50: ordinal not in range(128)").
Proof.
  unfold ascii_encode_error, code_points.
  rewrite !list_ascii_of_string_app, !fmap_app.
  generalize (Ascii.N_of_ascii <$> String.list_ascii_of_string audio_file).
  intros rest. vm_compute. reflexivity.
Qed.

(** For a path that names no file the [try] block raises at once. *)
Lemma transcribe_try_missing (self : t) (fs : filesystem)
    (audio_file : string) (language : option string) (fmt : string) (w : io) :
  fs !! audio_file = None →
  transcribe_try self fs audio_file language fmt w =
    (w, Raise (Exn FileNotFoundError (MSG_NOT_FOUND +:+ audio_file))).
Proof.
  intros Hnone. unfold transcribe_try, path_exists. rewrite Hnone.
  by rewrite (bool_decide_eq_false_2 _ is_Some_None).
Qed.

(** On a stream that encodes in ASCII a missing file makes [transcribe]
    raise. *)
Lemma transcribe_missing_ascii (self : t) (fs : filesystem)
    (audio_file : string) (language : option string) (fmt : string) (w : io) :
  fs !! audio_file = None →
  stdout_refuses w = ascii_encode_error →
  transcribe self fs audio_file language fmt w =
    (w, Raise (Exn (OtherException "UnicodeEncodeError")
                 "'ascii' codec can't encode characters in position 37-50: ordinal not in range(128)")).
Proof.
  intros Hnone Hascii.
  rewrite transcribe_outcome, (transcribe_try_missing _ _ _ _ _ _ Hnone).
  rewrite Hascii.
  change (exn_str (Exn FileNotFoundError (MSG_NOT_FOUND +:+ audio_file)))
    with (MSG_NOT_FOUND +:+ audio_file).
  by rewrite not_found_line_refused.
Qed.

(** C2. [transcribe] catches every exception of its [try] block, but the
    [print] of its [except] block is not protected.  For every input: the
    value of the block is returned when the block returns; after an
    exception [e] of the block the string ["Error: "] followed by [str(e)],
    which starts with the marker, is returned when the stream takes the log
    line; and when the stream refuses the line its exception leaves
    [transcribe].  On a terminal that encodes in ASCII, a file named
    ["録音.wav"] that exists and cannot be opened makes [transcribe] raise
    [UnicodeEncodeError], where the specification promises the error string. *)
Theorem transcribe_handler_can_raise :
  (∀ (self : t) (fs : filesystem) (audio_file : string)
     (language : option string) (fmt : string) (w : io),
     transcribe self fs audio_file language fmt w =
       match transcribe_try self fs audio_file language fmt w with
       | (w', Ret v) => (w', Ret v)
       | (w', Raise e) =>
           match stdout_refuses w' ("Error occurred during transcription: "
                                    +:+ exn_str e) with
           | Some e' => (w', Raise e')
           | None =>
               ({| stdout := stdout w'
                             ++ ["Error occurred during transcription: "
                                 +:+ exn_str e];
                   requests := requests w';
                   stdout_refuses := stdout_refuses w' |},
                Ret (PStr ("Error: " +:+ exn_str e)))
           end
       end)
  ∧ (∀ e : exn, startswith ("Error: " +:+ exn_str e) "Error: " = true)
  ∧ transcribe_try Demo.service Demo.locked_disk "録音.wav" None "text"
      Demo.ascii_terminal =
      (Demo.ascii_terminal,
       Raise (Exn (OtherException "PermissionError")
                "[Errno 13] Permission denied: '録音.wav'"))
  ∧ transcribe Demo.service Demo.locked_disk "録音.wav" None "text"
      Demo.ascii_terminal =
      (Demo.ascii_terminal,
       Raise (Exn (OtherException "UnicodeEncodeError")
                "'ascii' codec can't encode characters in position 68-69: ordinal not in range(128)")).
Proof.
  split_and!.
  - apply transcribe_outcome.
  - intros e. apply prefix_app.
  - reflexivity.
  - rewrite transcribe_outcome.
    change (transcribe_try Demo.service Demo.locked_disk "録音.wav" None "text"
              Demo.ascii_terminal)
      with (Demo.ascii_terminal,
            @Raise pyval (Exn (OtherException "PermissionError")
                            "[Errno 13] Permission denied: '録音.wav'")).
    cbv beta iota.
    change (stdout_refuses Demo.ascii_terminal) with ascii_encode_error.
    by vm_compute (ascii_encode_error _).
Qed.

(** Failures of each stage, on concrete worlds whose stream takes every
    line: a file that exists but cannot be opened, an endpoint that cannot
    be reached, a response whose [model_dump] raises, and a response whose
    [str] raises. *)
Lemma transcribe_reports_each_stage :
  (transcribe Demo.service
     {[ "rec.wav" := Unreadable (Exn (OtherException "PermissionError")
                                    "[Errno 13] Permission denied: 'rec.wav'") ]}
     "rec.wav" None "text" Demo.quiet).2
    = Ret (PStr "Error: [Errno 13] Permission denied: 'rec.wav'")
  ∧ (transcribe Demo.offline_service Demo.disk "rec.wav" None "text"
       Demo.quiet).2
    = Ret (PStr "Error: Connection error.")
  ∧ (∀ self c r,
       client self = c →
       create c = (λ _ _, Ret r) →
       model_dump r = Some (Raise (Exn (OtherException "RuntimeError") "boom")) →
       (transcribe self Demo.disk "rec.wav" None "json" Demo.quiet).2
       = Ret (PStr "Error: boom"))
  ∧ (∀ self c r,
       client self = c →
       create c = (λ _ _, Ret r) →
       str_of r = Raise (Exn (OtherException "RuntimeError") "no str") →
       (transcribe self Demo.disk "rec.wav" None "text" Demo.quiet).2
       = Ret (PStr "Error: no str")).
Proof.
  split_and!; [done | done | |].
  - intros self c r Hc Hcreate Hdump.
    unfold transcribe, try_except, transcribe_try; simpl.
    unfold mbind, M_bind, bind, lift, transcriptions_create; simpl.
    rewrite Hc, Hcreate. unfold process_response. simpl. by rewrite Hdump.
  - intros self c r Hc Hcreate Hstr.
    unfold transcribe, try_except, transcribe_try; simpl.
    unfold mbind, M_bind, bind, lift, transcriptions_create; simpl.
    rewrite Hc, Hcreate. unfold process_response, text_or_str. simpl.
    by rewrite Hstr.
Qed.

(** C3. For a path that names no file, the [try] block of [transcribe]
    raises [FileNotFoundError] and sends nothing, and the [except] block
    catches it; the error string that carries the not-found message and the
    path is returned when the stream takes the log line, and when the
    stream refuses the line its exception leaves [transcribe].  The
    not-found message is Japanese: on a terminal that encodes in ASCII
    [transcribe] raises [UnicodeEncodeError] for every missing path, where
    the specification promises a result and no exception. *)
Theorem transcribe_missing_file_can_raise (self : t) (fs : filesystem)
    (audio_file : string) (language : option string) (fmt : string) (w : io) :
  fs !! audio_file = None →
  transcribe_try self fs audio_file language fmt w =
    (w, Raise (Exn FileNotFoundError (MSG_NOT_FOUND +:+ audio_file)))
  ∧ transcribe self fs audio_file language fmt w =
      match stdout_refuses w ("Error occurred during transcription: "
                              +:+ MSG_NOT_FOUND +:+ audio_file) with
      | Some e' => (w, Raise e')
      | None =>
          ({| stdout := stdout w ++ ["Error occurred during transcription: "
                                     +:+ MSG_NOT_FOUND +:+ audio_file];
              requests := requests w;
              stdout_refuses := stdout_refuses w |},
           Ret (PStr ("Error: " +:+ MSG_NOT_FOUND +:+ audio_file)))
      end
  ∧ (stdout_refuses w = ascii_encode_error →
     transcribe self fs audio_file language fmt w =
       (w, Raise (Exn (OtherException "UnicodeEncodeError")
                    "'ascii' codec can't encode characters in position 37-50: ordinal not in range(128)"))).
Proof.
  intros Hnone.
  pose proof (transcribe_try_missing self fs audio_file language fmt w Hnone)
    as Htry.
  split_and!; [exact Htry | | by apply transcribe_missing_ascii].
  by rewrite transcribe_outcome, Htry.
Qed.

(** The demonstration disk has no file ["gone.wav"], and the terminal
    encodes in ASCII: the call raises. *)
Lemma transcribe_missing_file_can_raise_witness :
  transcribe Demo.service Demo.disk "gone.wav" (Some "en") "text"
    Demo.ascii_terminal =
    (Demo.ascii_terminal,
     Raise (Exn (OtherException "UnicodeEncodeError")
              "'ascii' codec can't encode characters in position 37-50: ordinal not in range(128)")).
Proof.
  apply (transcribe_missing_file_can_raise Demo.service Demo.disk "gone.wav"
           (Some "en") "text" Demo.ascii_terminal); reflexivity.
Defined.

End Transcribe.

Section Configuration.

Import WhisperTranscriber.

(** C10. A service that [__init__] has just built has the selected model
    id ["whisper-1"]; [set_model] stores whatever string it is given, in
    the catalogue or not, and changes nothing else. *)
Theorem default_model_and_set_model (p : process)
    (k e v d : option string) (self : t) :
  __init__ p k e v d = Ret self →
  model self = "whisper-1"
  ∧ ∀ id : string,
      model (set_model self id) = id
      ∧ custom_vocabulary (set_model self id) = custom_vocabulary self
      ∧ system_instructions (set_model self id) = system_instructions self
      ∧ azure_deployment (set_model self id) = azure_deployment self.
Proof.
  intros Hinit. split; [|done].
  unfold __init__ in Hinit.
  destruct (_ || _); [done|].
  destruct (AzureOpenAI p) as [new_client|]; [|done].
  destruct (new_client _ _ _); simpl in Hinit; [|done].
  by injection Hinit as <-.
Qed.

(** A service built from two arguments, then given a model id that is not
    in the catalogue. *)
Lemma default_model_and_set_model_witness :
  ∃ self : t,
    __init__ (Demo.with_sdk ∅) (Some "key") (Some "https://example.openai.azure.com/")
         None None = Ret self
    ∧ model self = "whisper-1"
    ∧ model (set_model self "not-in-the-catalogue") = "not-in-the-catalogue".
Proof.
  eexists. split; [reflexivity|].
  split.
  - exact (proj1 (default_model_and_set_model (Demo.with_sdk ∅) (Some "key")
                    (Some "https://example.openai.azure.com/") None None _
                    eq_refl)).
  - exact (proj1 (proj2 (default_model_and_set_model (Demo.with_sdk ∅)
                           (Some "key")
                           (Some "https://example.openai.azure.com/") None None
                           _ eq_refl) "not-in-the-catalogue")).
Defined.

End Configuration.

Section Constructor.

Import WhisperTranscriber.

(** The key and the endpoint that [__init__] ends up with: the argument,
    else the environment. *)
Lemma init_settings_required (p : process) (k e v d : option string) :
  truthy (py_or (py_or k (getenv p "AZURE_OPENAI_API_KEY"))
                (getenv p "OPENAI_API_KEY")) = false
  ∨ truthy (py_or e (getenv p "AZURE_OPENAI_ENDPOINT")) = false →
  __init__ p k e v d = Raise (Exn ValueError MSG_SETTINGS_REQUIRED).
Proof.
  intros H. unfold __init__.
  destruct H as [-> | ->]; simpl; [done|].
  by rewrite orb_true_r.
Qed.

Lemma init_passes_check (p : process) (k e v d : option string) :
  truthy (py_or (py_or k (getenv p "AZURE_OPENAI_API_KEY"))
                (getenv p "OPENAI_API_KEY")) = true →
  truthy (py_or e (getenv p "AZURE_OPENAI_ENDPOINT")) = true →
  __init__ p k e v d =
    match AzureOpenAI p with
    | None => Raise (Exn ValueError MSG_NO_AZURE_CLIENT)
    | Some new_client =>
        res_bind
          (new_client
             (py_or (py_or k (getenv p "AZURE_OPENAI_API_KEY"))
                    (getenv p "OPENAI_API_KEY"))
             (py_or e (getenv p "AZURE_OPENAI_ENDPOINT"))
             (py_or_lit (py_or v (getenv p "AZURE_OPENAI_API_VERSION"))
                        DEFAULT_API_VERSION))
          (λ c,
             Ret {| api_key :=
                      py_or (py_or k (getenv p "AZURE_OPENAI_API_KEY"))
                            (getenv p "OPENAI_API_KEY");
                    azure_endpoint :=
                      py_or e (getenv p "AZURE_OPENAI_ENDPOINT");
                    api_version :=
                      py_or_lit (py_or v (getenv p "AZURE_OPENAI_API_VERSION"))
                                DEFAULT_API_VERSION;
                    azure_deployment :=
                      py_or d (getenv p "AZURE_OPENAI_DEPLOYMENT");
                    client := c;
                    model := "whisper-1";
                    custom_vocabulary := [];
                    system_instructions := [] |})
    end.
Proof.
  intros Hk He. unfold __init__. by rewrite Hk, He.
Qed.

(** [py_or] is falsy exactly when both sides are. *)
Lemma truthy_py_or (a b : option string) :
  truthy (py_or a b) = truthy a || truthy b.
Proof.
  unfold py_or. by destruct (truthy a) eqn:E.
Qed.

(** C6, as the code has it.  [__init__] looks for the API key in its
    argument, then in [AZURE_OPENAI_API_KEY], then in [OPENAI_API_KEY], and
    for the endpoint in its argument, then in [AZURE_OPENAI_ENDPOINT].
    When the key or the endpoint is found nowhere it raises the
    [ValueError] that asks for the settings; when both are found it raises
    a [ValueError] if the [openai] package has no [AzureOpenAI], and
    otherwise returns a service holding the key, the endpoint and the
    client as soon as the SDK builds the client.  Every [ValueError] of the
    constructor leaves the window with no transcriber. *)
Theorem init_configuration (p : process) (k e v d : option string) :
  let key :=
    py_or (py_or k (getenv p "AZURE_OPENAI_API_KEY"))
          (getenv p "OPENAI_API_KEY") in
  let endpoint := py_or e (getenv p "AZURE_OPENAI_ENDPOINT") in
  (truthy key = false ∨ truthy endpoint = false →
     __init__ p k e v d = Raise (Exn ValueError MSG_SETTINGS_REQUIRED))
  ∧ (truthy key = true ∧ truthy endpoint = true ∧ AzureOpenAI p = None →
       __init__ p k e v d = Raise (Exn ValueError MSG_NO_AZURE_CLIENT))
  ∧ (∀ new_client c,
       truthy key = true ∧ truthy endpoint = true
       ∧ AzureOpenAI p = Some new_client
       ∧ new_client key endpoint
           (py_or_lit (py_or v (getenv p "AZURE_OPENAI_API_VERSION"))
                      DEFAULT_API_VERSION) = Ret c →
       ∃ self, __init__ p k e v d = Ret self
               ∧ api_key self = key ∧ azure_endpoint self = endpoint
               ∧ client self = c)
  ∧ (∀ a b c' d' msg,
       __init__ p (Some a) (Some b) (Some c') (Some d') =
         Raise (Exn ValueError msg) →
       MainWindow.new_transcriber p a b c' d' = Ret None).
Proof.
  intros key endpoint. split_and!.
  - apply init_settings_required.
  - intros (Hk & He & Hsdk). by rewrite init_passes_check, Hsdk.
  - intros new_client c (Hk & He & Hsdk & Hnew).
    rewrite init_passes_check, Hsdk by done.
    fold key endpoint. rewrite Hnew. simpl. by eexists.
  - intros a b c' d' msg Hinit. unfold MainWindow.new_transcriber.
    by rewrite Hinit.
Qed.

(** The three outcomes on concrete processes: nothing configured anywhere;
    key and endpoint given but no [AzureOpenAI] in the package; key given,
    endpoint in the environment, SDK present. *)
Lemma init_configuration_witness :
  __init__ (Demo.with_sdk ∅) None None None None =
    Raise (Exn ValueError MSG_SETTINGS_REQUIRED)
  ∧ MainWindow.new_transcriber (Demo.with_sdk ∅) "" "" "2024-02-15-preview" ""
    = Ret None
  ∧ __init__ (Demo.without_sdk ∅) (Some "key") (Some "https://e/") None None =
      Raise (Exn ValueError MSG_NO_AZURE_CLIENT)
  ∧ ∃ self,
      __init__ (Demo.with_sdk {[ "AZURE_OPENAI_ENDPOINT" := "https://e/" ]})
           (Some "key") None None None = Ret self
      ∧ api_key self = Some "key" ∧ azure_endpoint self = Some "https://e/".
Proof.
  split_and!.
  - apply (init_configuration (Demo.with_sdk ∅) None None None None).
    by left.
  - apply (proj2 (proj2 (proj2
      (init_configuration (Demo.with_sdk ∅) (Some "") (Some "") None None)))
      "" "" "2024-02-15-preview" "" MSG_SETTINGS_REQUIRED).
    reflexivity.
  - by apply (init_configuration (Demo.without_sdk ∅) (Some "key")
                (Some "https://e/") None None).
  - destruct (proj1 (proj2 (proj2
      (init_configuration
         (Demo.with_sdk {[ "AZURE_OPENAI_ENDPOINT" := "https://e/" ]})
         (Some "key") None None None)))
      (λ k e v, Ret (Demo.answering k e v))
      (Demo.answering (Some "key") (Some "https://e/") DEFAULT_API_VERSION))
      as (self & Hinit & Hk & He & _); [by split_and! |].
    exists self. by split_and!.
Defined.

(** C6 as stated fails: with an API key and an endpoint both present the
    constructor still raises when the [openai] package has no
    [AzureOpenAI] (the guard after the settings check); and with both
    arguments absent it returns a service when the environment supplies the
    key and the endpoint. *)
Lemma init_raises_with_key_and_endpoint :
  (truthy (Some "key") = true
   ∧ truthy (Some "https://example.openai.azure.com/") = true
   ∧ __init__ (Demo.without_sdk ∅) (Some "key")
       (Some "https://example.openai.azure.com/") None None =
       Raise (Exn ValueError MSG_NO_AZURE_CLIENT)
   ∧ ¬ returns (__init__ (Demo.without_sdk ∅) (Some "key")
                  (Some "https://example.openai.azure.com/") None None))
  ∧ returns (__init__
               (Demo.with_sdk
                  (<[ "AZURE_OPENAI_API_KEY" := "key" ]>
                     {[ "AZURE_OPENAI_ENDPOINT" :=
                          "https://example.openai.azure.com/" ]}))
               None None None None).
Proof.
  split.
  - split; [reflexivity|]. split; [reflexivity|]. split; [reflexivity|].
    intros [self Hself]. vm_compute in Hself. discriminate Hself.
  - eexists. reflexivity.
Qed.

End Constructor.

Section Environment.

Import WhisperTranscriber.

Lemma py_or_lit_py_or (a b : option string) (d : string) :
  py_or_lit (py_or a b) d = py_or_lit a (py_or_lit b d).
Proof.
  unfold py_or. destruct a as [s|]; simpl; [|done].
  destruct (String.eqb_spec s "") as [-> | Hne]; simpl; [done|].
  by apply py_or_lit_truthy.
Qed.

Lemma py_or_cases (a b : option string) :
  py_or a b = if truthy a then a else b.
Proof. done. Qed.

(** C8, as the code has it.  In a process whose [openai] package has
    [AzureOpenAI] and whose SDK builds the client, [__init__] raises
    exactly when the API key is absent from the argument and from both
    [AZURE_OPENAI_API_KEY] and [OPENAI_API_KEY], or the endpoint is absent
    from the argument and from [AZURE_OPENAI_ENDPOINT]; the service it
    returns holds the first value present in that order, and its API
    version is the argument, else [AZURE_OPENAI_API_VERSION], else
    ["2024-02-15-preview"]. *)
Theorem init_environment_fallback (p : process) (k e v d : option string)
    (new_client : option string → option string → string → res sdk_client) :
  AzureOpenAI p = Some new_client →
  (∀ a b c, returns (new_client a b c)) →
  (raises (__init__ p k e v d) ↔
     (truthy k = false
      ∧ truthy (getenv p "AZURE_OPENAI_API_KEY") = false
      ∧ truthy (getenv p "OPENAI_API_KEY") = false)
     ∨ (truthy e = false
        ∧ truthy (getenv p "AZURE_OPENAI_ENDPOINT") = false))
  ∧ (∀ self, __init__ p k e v d = Ret self →
       api_key self =
         (if truthy k then k
          else if truthy (getenv p "AZURE_OPENAI_API_KEY")
               then getenv p "AZURE_OPENAI_API_KEY"
               else getenv p "OPENAI_API_KEY")
       ∧ azure_endpoint self =
           (if truthy e then e else getenv p "AZURE_OPENAI_ENDPOINT")
       ∧ api_version self =
           py_or_lit v
             (py_or_lit (getenv p "AZURE_OPENAI_API_VERSION")
                        "2024-02-15-preview")).
Proof.
  intros Hsdk Hnew.
  destruct (truthy (py_or (py_or k (getenv p "AZURE_OPENAI_API_KEY"))
                          (getenv p "OPENAI_API_KEY"))) eqn:Hk;
    [destruct (truthy (py_or e (getenv p "AZURE_OPENAI_ENDPOINT"))) eqn:He|].
  - (* both found: the constructor returns *)
    rewrite init_passes_check, Hsdk by done.
    destruct (Hnew (py_or (py_or k (getenv p "AZURE_OPENAI_API_KEY"))
                          (getenv p "OPENAI_API_KEY"))
                   (py_or e (getenv p "AZURE_OPENAI_ENDPOINT"))
                   (py_or_lit (py_or v (getenv p "AZURE_OPENAI_API_VERSION"))
                              DEFAULT_API_VERSION)) as [c ->].
    simpl. rewrite !truthy_py_or in Hk. rewrite truthy_py_or in He.
    split.
    + split; [by intros [? ?]|].
      intros [(K1 & K2 & K3) | (E1 & E2)].
      * by rewrite K1, K2, K3 in Hk.
      * by rewrite E1, E2 in He.
    + intros self [= <-]. simpl. split_and!.
      * unfold py_or. destruct (truthy k) eqn:Ek; [by rewrite Ek|].
        by destruct (truthy (getenv p "AZURE_OPENAI_API_KEY")).
      * done.
      * apply py_or_lit_py_or.
  - (* endpoint found nowhere *)
    rewrite init_settings_required by (by right).
    rewrite truthy_py_or in He. apply orb_false_iff in He as [E1 E2].
    split; [|done]. split; [intros _; by right | by eexists].
  - (* key found nowhere *)
    rewrite init_settings_required by (by left).
    rewrite !truthy_py_or in Hk.
    apply orb_false_iff in Hk as [[K1 K2]%orb_false_iff K3].
    split; [|done]. split; [intros _; by left | by eexists].
Qed.

(** The key comes from [OPENAI_API_KEY], the endpoint and the version from
    their variables: the constructor returns, with these values. *)
Lemma init_environment_fallback_witness :
  ∃ self,
    __init__ (Demo.with_sdk
            (<[ "OPENAI_API_KEY" := "from-env" ]>
               (<[ "AZURE_OPENAI_ENDPOINT" := "https://e/" ]>
                  {[ "AZURE_OPENAI_API_VERSION" := "2023-05-15" ]})))
         None None None None = Ret self
    ∧ api_key self = Some "from-env"
    ∧ azure_endpoint self = Some "https://e/"
    ∧ api_version self = "2023-05-15".
Proof.
  destruct (init_environment_fallback
              (Demo.with_sdk
                 (<[ "OPENAI_API_KEY" := "from-env" ]>
                    (<[ "AZURE_OPENAI_ENDPOINT" := "https://e/" ]>
                       {[ "AZURE_OPENAI_API_VERSION" := "2023-05-15" ]})))
              None None None None
              (λ k e v, Ret (Demo.answering k e v)) eq_refl
              (λ a b c, ex_intro _ (Demo.answering a b c) eq_refl))
    as [_ Hvalues].
  eexists. split; [reflexivity|].
  destruct (Hvalues _ eq_refl) as (Hk & He & Hv).
  split; [exact Hk|]. split; [exact He | exact Hv].
Defined.

(** C8 as stated fails twice: with the API version argument absent and
    [AZURE_OPENAI_API_VERSION] set, the version is the variable's value and
    not ["2024-02-15-preview"]; and with key and endpoint both passed as
    arguments the constructor raises when the package has no
    [AzureOpenAI]. *)
Lemma init_version_and_guard_counterexample :
  (∃ self,
     __init__ (Demo.with_sdk {[ "AZURE_OPENAI_API_VERSION" := "2023-05-15" ]})
          (Some "key") (Some "https://e/") None None = Ret self
     ∧ api_version self = "2023-05-15"
     ∧ api_version self ≠ "2024-02-15-preview")
  ∧ raises (__init__ (Demo.without_sdk ∅) (Some "key") (Some "https://e/")
              None None).
Proof.
  split.
  - eexists. split; [reflexivity|]. by split.
  - by eexists.
Qed.

End Environment.

Section Session.

Import MainWindow.


Lemma start_recording_configured (w : t) :
  is_Some (whisper_transcriber w) →
  start_recording w =
    does (start_calls w)
      (set_audio_recorder
         (AudioRecorder.start_recording (audio_recorder w)) w).
Proof.
  intros [service Hservice].
  destruct w as [[rec] tr' ind snd cp lang name ths es].
  simpl in Hservice. subst tr'. unfold start_calls.
  destruct ind, snd; run_handler.
Qed.

Lemma start_recording_unconfigured (w : t) :
  whisper_transcriber w = None →
  start_recording w =
    does [MessageBoxWarning AppLabels.ERROR_TITLE
            AppLabels.ERROR_API_KEY_REQUIRED] w.
Proof.
  intros Hnone. unfold start_recording. by rewrite Hnone.
Qed.

Lemma stop_recording_calls (captured : option string) (w : t) :
  stop_recording captured w =
    does (stop_calls captured w)
      (set_threads (threads w ++ dispatched captured w)
         (set_audio_recorder {| AudioRecorder.recording := false |} w)).
Proof.
  destruct w as [[rec] tr' ind snd cp lang name ths es].
  unfold stop_calls, dispatched.
  destruct captured as [path|], ind, snd; run_handler;
    by rewrite ?app_nil_r.
Qed.

Lemma on_transcription_complete_calls (text : string) (w : t) :
  on_transcription_complete text w = does (complete_calls text w) w.
Proof.
  destruct w as [[rec] tr' ind snd cp lang name ths es].
  unfold complete_calls.
  destruct ind, snd, cp; run_handler.
Qed.




(** C7. A toggle that stops a capture yielding no artifact ([None] or an
    empty path) leaves the recorder stopped and starts no background
    transcription: the pending threads are unchanged and the calls made are
    those listed, none of which starts a thread or announces a
    transcription.  The session is then idle exactly when no earlier
    transcription is pending; while one is pending the session is
    transcribing. *)
Theorem stop_without_artifact (w : t) (captured : option string) :
  AudioRecorder.is_recording (audio_recorder w) = true →
  truthy captured = false →
  AudioRecorder.is_recording
    (audio_recorder (_toggle_recording_impl captured w)) = false
  ∧ threads (_toggle_recording_impl captured w) = threads w
  ∧ effects (_toggle_recording_impl captured w) =
      effects w
      ++ [RecordButtonSetText AppLabels.RECORD_START_BUTTON;
          RecorderStop captured;
          RecordingStatusChanged false;
          RecordingTimerStop;
          IndicatorHide]
      ++ (if enable_sound w then [Play StopSound] else [])
  ∧ Forall (λ e, is_dispatch e = false
                 ∧ e ≠ StatusBarShowMessage AppLabels.STATUS_TRANSCRIBING
                 ∧ e ≠ IndicatorSetMode MODE_TRANSCRIBING)
      (drop (length (effects w))
         (effects (_toggle_recording_impl captured w)))
  ∧ session_state (_toggle_recording_impl captured w) ≠ Recording
  ∧ session_state (_toggle_recording_impl captured w) =
      (if bool_decide (threads w = []) then Idle else Transcribing)
  ∧ (session_state (_toggle_recording_impl captured w) = Idle
     ↔ threads w = []).
Proof.
  intros Hrec Hnone.
  assert (Hnothing : dispatched captured w = []).
  { unfold dispatched. destruct captured; by rewrite ?Hnone. }
  assert (Hstop : _toggle_recording_impl captured w =
            does (stop_calls captured w)
              (set_threads (threads w)
                 (set_audio_recorder {| AudioRecorder.recording := false |}
                    w))).
  { unfold _toggle_recording_impl.
    by rewrite Hrec, stop_recording_calls, Hnothing, app_nil_r. }
  assert (Hcalls : stop_calls captured w =
            [RecordButtonSetText AppLabels.RECORD_START_BUTTON;
             RecorderStop captured;
             RecordingStatusChanged false;
             RecordingTimerStop;
             IndicatorHide]
            ++ (if enable_sound w then [Play StopSound] else [])).
  { unfold stop_calls. by rewrite Hnone. }
  rewrite Hstop. simpl. rewrite Hcalls. split_and!; try done.
  - rewrite drop_app_length.
    destruct (enable_sound w); repeat constructor; done.
  - unfold session_state. simpl. by case_bool_decide.
  - unfold session_state. simpl. by case_bool_decide.
Qed.

(** The capture of the demonstration window yields nothing. *)
Lemma stop_without_artifact_witness :
  session_state Demo.recording_window = Recording
  ∧ session_state (_toggle_recording_impl None Demo.recording_window) = Idle
  ∧ threads (_toggle_recording_impl (Some "") Demo.recording_window) = []
  ∧ Forall (λ e, is_dispatch e = false
                 ∧ e ≠ StatusBarShowMessage AppLabels.STATUS_TRANSCRIBING
                 ∧ e ≠ IndicatorSetMode MODE_TRANSCRIBING)
      (drop (length (effects Demo.recording_window))
         (effects (_toggle_recording_impl None Demo.recording_window))).
Proof.
  destruct (stop_without_artifact Demo.recording_window None eq_refl eq_refl)
    as (_ & _ & _ & Hcalls & _ & Hstate & _).
  destruct (stop_without_artifact Demo.recording_window (Some "")
              eq_refl eq_refl) as (_ & Hthreads & _).
  split; [reflexivity|]. split; [exact Hstate|].
  split; [exact Hthreads | exact Hcalls].
Defined.

(** A capture started while the transcription of ["a.wav"] is pending and
    stopped without an artifact: the window is reached by toggles alone,
    the stop dispatches nothing, and the session is transcribing, not
    idle. *)
Lemma stop_without_artifact_counterexample :
  session_state
    (run Demo.fresh_window
       [Toggle None; Toggle (Some "a.wav"); Toggle None]) = Recording
  ∧ threads
      (run Demo.fresh_window
         [Toggle None; Toggle (Some "a.wav"); Toggle None; Toggle None])
    = [("a.wav", Some "")]
  ∧ session_state
      (_toggle_recording_impl None
         (run Demo.fresh_window
            [Toggle None; Toggle (Some "a.wav"); Toggle None]))
    = Transcribing
  ∧ session_state
      (_toggle_recording_impl None
         (run Demo.fresh_window
            [Toggle None; Toggle (Some "a.wav"); Toggle None]))
    ≠ Idle.
Proof. split_and!; [reflexivity | reflexivity | reflexivity | discriminate]. Qed.


(** Without a service the same toggle only shows the warning. *)
Lemma toggle_unconfigured (w : t) (captured : option string) :
  AudioRecorder.is_recording (audio_recorder w) = false →
  whisper_transcriber w = None →
  _toggle_recording_impl captured w =
    does [MessageBoxWarning AppLabels.ERROR_TITLE
            AppLabels.ERROR_API_KEY_REQUIRED] w.
Proof.
  intros Hrec Hnone.
  unfold _toggle_recording_impl, start_recording. by rewrite Hrec, Hnone.
Qed.





End Session.

(** * Further properties of the transcription service *)

Section Strings.

Lemma append_cons (x : Ascii.ascii) (a b : string) :
  String x a +:+ b = String x (a +:+ b).
Proof. reflexivity. Qed.

Lemma append_assoc (a b c : string) : (a +:+ b) +:+ c = a +:+ (b +:+ c).
Proof.
  induction a as [|x a IH]; [reflexivity|].
  rewrite !append_cons. by f_equal.
Qed.

Lemma append_nil_r (a : string) : a +:+ "" = a.
Proof.
  induction a as [|x a IH]; [reflexivity|].
  rewrite append_cons. by f_equal.
Qed.

Lemma length_append (a b : string) :
  String.length (a +:+ b) = String.length a + String.length b.
Proof.
  induction a as [|x a IH]; [reflexivity|].
  rewrite append_cons. simpl. by rewrite IH.
Qed.

(** Two concatenations with heads of the same length agree part by part. *)
Lemma append_inj (a a' b b' : string) :
  String.length a = String.length a' →
  a +:+ b = a' +:+ b' → a = a' ∧ b = b'.
Proof.
  revert a'. induction a as [|x a IH]; intros [|x' a'] Hlen Heq;
    try done.
  rewrite !append_cons in Heq. injection Heq as -> Heq.
  simpl in Hlen. destruct (IH a') as [-> ->]; [lia | done | done].
Qed.

Lemma join_app (sep : string) (xs ys : list string) :
  xs ≠ [] → ys ≠ [] →
  join sep (xs ++ ys) = join sep xs +:+ sep +:+ join sep ys.
Proof.
  intros Hxs Hys. induction xs as [|x xs IH]; [done|].
  destruct xs as [|x' xs].
  - destruct ys; [done|]. reflexivity.
  - simpl ((_ :: _) ++ _). rewrite join_cons.
    change (x' :: xs ++ ys) with ((x' :: xs) ++ ys).
    rewrite IH by done. rewrite (join_cons sep x x' xs).
    by rewrite !append_assoc.
Qed.

End Strings.

Section Stores.

Import WhisperTranscriber.

Lemma build_prompt_cases (self : t) :
  _build_prompt self =
    match custom_vocabulary self, system_instructions self with
    | [], [] => None
    | v :: vs, [] => Some ("Vocabulary: " +:+ join ", " (v :: vs))
    | [], i :: more => Some ("Instructions: " +:+ join ". " (i :: more))
    | v :: vs, i :: more =>
        Some (("Vocabulary: " +:+ join ", " (v :: vs))
              +:+ " " +:+
              ("Instructions: " +:+ join ". " (i :: more)))
    end.
Proof.
  unfold _build_prompt. rewrite prompt_parts_cases.
  destruct (custom_vocabulary self), (system_instructions self); done.
Qed.

(** X1. The two stores are ordered lists that only grow by appending:
    adding one string is adding the one-element list, two additions are
    one addition of the concatenation (order and repetitions kept),
    clearing and then adding leaves exactly what was added, and each
    store's operations leave the other store and the selected model
    alone. *)
Theorem stores_append_in_order (self : t) (a b : list string) (s : string) :
  (add_custom_vocabulary self (One s) = add_custom_vocabulary self (Many [s])
   ∧ add_custom_vocabulary (add_custom_vocabulary self (Many a)) (Many b)
     = add_custom_vocabulary self (Many (a ++ b))
   ∧ get_custom_vocabulary (add_custom_vocabulary self (Many a))
     = get_custom_vocabulary self ++ a
   ∧ get_custom_vocabulary
       (add_custom_vocabulary (clear_custom_vocabulary self) (Many a)) = a
   ∧ get_system_instructions (add_custom_vocabulary self (Many a))
     = get_system_instructions self
   ∧ model (clear_custom_vocabulary (add_custom_vocabulary self (Many a)))
     = model self)
  ∧ (add_system_instruction self (One s)
     = add_system_instruction self (Many [s])
     ∧ add_system_instruction (add_system_instruction self (Many a)) (Many b)
       = add_system_instruction self (Many (a ++ b))
     ∧ get_system_instructions (add_system_instruction self (Many a))
       = get_system_instructions self ++ a
     ∧ get_system_instructions
         (add_system_instruction (clear_system_instructions self) (Many a)) = a
     ∧ get_custom_vocabulary (add_system_instruction self (Many a))
       = get_custom_vocabulary self
     ∧ model (clear_system_instructions
                (add_system_instruction self (Many a))) = model self).
Proof.
  split; split_and!; try done.
  - unfold add_custom_vocabulary, set_custom_vocabulary; simpl.
    by rewrite app_assoc.
  - unfold add_system_instruction, set_system_instructions; simpl.
    by rewrite app_assoc.
Qed.

(** X2. Adding entries to a store that is not empty extends the prompt
    at its end: new instructions are appended after [". "] whatever the
    vocabulary is, and new vocabulary terms after [", "] when there are no
    instructions. *)
Theorem prompt_grows_at_the_end (self : t) (l : list string) :
  l ≠ [] →
  (system_instructions self ≠ [] →
   _build_prompt (add_system_instruction self (Many l)) =
     (λ prompt, prompt +:+ ". " +:+ join ". " l) <$> _build_prompt self)
  ∧ (custom_vocabulary self ≠ [] → system_instructions self = [] →
     _build_prompt (add_custom_vocabulary self (Many l)) =
       (λ prompt, prompt +:+ ", " +:+ join ", " l) <$> _build_prompt self).
Proof.
  intros Hl. split.
  - intros Hinstr.
    rewrite (build_prompt_cases (add_system_instruction self (Many l))).
    rewrite (build_prompt_cases self).
    change (custom_vocabulary (add_system_instruction self (Many l)))
      with (custom_vocabulary self).
    change (system_instructions (add_system_instruction self (Many l)))
      with (system_instructions self ++ l).
    destruct (system_instructions self) as [|i more] eqn:Ei; [done|].
    rewrite <- app_comm_cons.
    change (i :: more ++ l) with ((i :: more) ++ l).
    rewrite (join_app ". " (i :: more) l) by done.
    destruct (custom_vocabulary self) as [|v vs];
      cbn [fmap option_fmap option_map]; by rewrite !append_assoc.
  - intros Hvocab Hinstr.
    rewrite (build_prompt_cases (add_custom_vocabulary self (Many l))).
    rewrite (build_prompt_cases self).
    change (system_instructions (add_custom_vocabulary self (Many l)))
      with (system_instructions self).
    change (custom_vocabulary (add_custom_vocabulary self (Many l)))
      with (custom_vocabulary self ++ l).
    rewrite Hinstr.
    destruct (custom_vocabulary self) as [|v vs] eqn:Ev; [done|].
    rewrite <- app_comm_cons.
    change (v :: vs ++ l) with ((v :: vs) ++ l).
    rewrite (join_app ", " (v :: vs) l) by done.
    cbn [fmap option_fmap option_map]. by rewrite !append_assoc.
Qed.

(** The demonstration service has one instruction and two terms. *)
Lemma prompt_grows_at_the_end_witness :
  _build_prompt
    (add_system_instruction Demo.service (Many ["Use full stops"; "No emoji"]))
  = Some ("Vocabulary: Kubernetes, gRPC Instructions: Remove filler words"
          +:+ ". " +:+ "Use full stops. No emoji")
  ∧ _build_prompt
      (add_custom_vocabulary (clear_system_instructions Demo.service)
         (One "etcd"))
    = Some ("Vocabulary: Kubernetes, gRPC" +:+ ", " +:+ "etcd").
Proof.
  split.
  - exact (proj1 (prompt_grows_at_the_end Demo.service
                    ["Use full stops"; "No emoji"] ltac:(discriminate))
             ltac:(discriminate)).
  - exact (proj2 (prompt_grows_at_the_end
                    (clear_system_instructions Demo.service) ["etcd"]
                    ltac:(discriminate))
             ltac:(discriminate) eq_refl).
Defined.

End Stores.

Section Responses.

Import WhisperTranscriber.

(** X3. Processing a response raises only what [model_dump()] raised (in
    the two structured formats) or what [str(response)] raised; a failure
    of [json.loads] alone is never propagated: without [model_dump], with a
    [str] that returns, every format yields a value. *)
Theorem process_response_failures (fmt : string) (r : response) :
  (∀ e, process_response fmt r = Raise e →
        (structured fmt = true ∧ model_dump r = Some (Raise e))
        ∨ str_of r = Raise e)
  ∧ (model_dump r = None → returns (str_of r) →
     returns (process_response fmt r)).
Proof.
  unfold process_response, structured, text_or_str, returns.
  destruct (String.eqb fmt "json" || String.eqb fmt "verbose_json").
  - split.
    + intros e. destruct (model_dump r) as [dumped|].
      { intros ->. by left. }
      destruct (as_dict_or_list r); [done|].
      destruct (json_loads r); [done|].
      destruct (str_of r); simpl; [done|]. intros [= ->]. by right.
    + intros -> [s ->]. destruct (as_dict_or_list r); [by eexists|].
      destruct (json_loads r); simpl; by eexists.
  - split.
    + intros e. destruct (str_of r); simpl; [done|]. intros [= ->]. by right.
    + intros _ [s ->]. simpl. by eexists.
Qed.

(** A response that is not JSON and carries a [text] attribute. *)
Lemma process_response_failures_witness :
  returns (process_response "verbose_json" (Demo.text_response "hi"))
  ∧ process_response "verbose_json" (Demo.text_response "hi")
    = Ret (PDict [("text", PStr "hi")]).
Proof.
  split; [|reflexivity].
  apply (proj2 (process_response_failures "verbose_json"
                  (Demo.text_response "hi"))); [reflexivity | by eexists].
Defined.

(** X4. In the structured formats, a response that has no [model_dump],
    is neither a [dict] nor a [list] and is not parseable as JSON is
    answered with the one-entry dictionary [{"text": v}], where [v] is
    exactly what a plain-text format returns for the same response (and
    the call fails exactly when the plain-text one does). *)
Theorem structured_fallback_wraps_text (fmt plain : string) (r : response) :
  structured fmt = true → structured plain = false →
  model_dump r = None → as_dict_or_list r = None → raises (json_loads r) →
  process_response fmt r =
    match process_response plain r with
    | Ret v => Ret (PDict [("text", v)])
    | Raise e => Raise e
    end.
Proof.
  unfold structured, process_response.
  intros -> -> -> -> [e ->]. by destruct (text_or_str r).
Qed.

Lemma structured_fallback_wraps_text_witness :
  process_response "json" (Demo.text_response "hi") =
    match process_response "vtt" (Demo.text_response "hi") with
    | Ret v => Ret (PDict [("text", v)])
    | Raise e => Raise e
    end.
Proof.
  apply structured_fallback_wraps_text; try reflexivity. by eexists.
Defined.

End Responses.

Section Calls.

Import WhisperTranscriber.

(** What a call of [transcribe] adds to the printed lines and to the
    requests. *)
Lemma transcribe_io (self : t) (fs : filesystem) (audio_file : string)
    (language : option string) (fmt : string) (w : io) :
  (transcribe self fs audio_file language fmt w).1 =
    {| stdout :=
         stdout w ++
         match (transcribe_try self fs audio_file language fmt w).2 with
         | Ret _ => []
         | Raise e =>
             match stdout_refuses w ("Error occurred during transcription: "
                                     +:+ exn_str e) with
             | Some _ => []
             | None => ["Error occurred during transcription: " +:+ exn_str e]
             end
         end;
       requests :=
         requests w ++
         match fs !! audio_file with
         | Some (Readable content) =>
             [(content, transcribe_params self language fmt)]
         | _ => []
         end;
       stdout_refuses := stdout_refuses w |}.
Proof.
  rewrite transcribe_outcome.
  pose proof (transcribe_try_io self fs audio_file language fmt w) as Htry.
  destruct (transcribe_try self fs audio_file language fmt w) as [w' [v|e]];
    simpl in *; subst w'; simpl.
  - by rewrite app_nil_r.
  - destruct (stdout_refuses w _); simpl; [|done].
    by rewrite app_nil_r.
Qed.

(** X5. One call of [transcribe] sends at most one request and prints at
    most one line; what was sent and printed before is kept.  It sends
    nothing exactly when the path names no readable file.  It prints
    nothing exactly when its [try] block returned or the call itself
    raised; the call raises only after an exception of its [try] block,
    with the exception of the stream that refused the log line. *)
Theorem transcribe_effects (self : t) (fs : filesystem) (audio_file : string)
    (language : option string) (fmt : string) (w : io) :
  ∃ sent printed,
    requests (transcribe self fs audio_file language fmt w).1
      = requests w ++ sent
    ∧ stdout (transcribe self fs audio_file language fmt w).1
      = stdout w ++ printed
    ∧ length sent ≤ 1 ∧ length printed ≤ 1
    ∧ (sent = [] ↔ ∀ content, fs !! audio_file ≠ Some (Readable content))
    ∧ (printed = [] ↔
       returns (transcribe_try self fs audio_file language fmt w).2
       ∨ raises (transcribe self fs audio_file language fmt w).2)
    ∧ (∀ e', (transcribe self fs audio_file language fmt w).2 = Raise e' ↔
         ∃ e, (transcribe_try self fs audio_file language fmt w).2 = Raise e
              ∧ stdout_refuses w ("Error occurred during transcription: "
                                  +:+ exn_str e) = Some e').
Proof.
  rewrite transcribe_io. simpl. eexists _, _.
  split; [reflexivity|]. split; [reflexivity|].
  rewrite transcribe_outcome.
  pose proof (transcribe_try_io self fs audio_file language fmt w) as Htry.
  destruct (transcribe_try self fs audio_file language fmt w) as [w' [v|e]];
    simpl in *; subst w'; simpl; unfold returns, raises.
  - split_and!.
    + destruct (fs !! audio_file) as [[content|e]|]; simpl; lia.
    + lia.
    + destruct (fs !! audio_file) as [[content|e]|]; split; try done.
      intros H. by destruct (H content).
    + split; [left; by eexists | done].
    + intros e'. split; [done|]. by intros (e & He & _).
  - destruct (stdout_refuses w _) as [e'|] eqn:Hline; simpl; split_and!.
    + destruct (fs !! audio_file) as [[content|e0]|]; simpl; lia.
    + lia.
    + destruct (fs !! audio_file) as [[content|e0]|]; split; try done.
      intros H. by destruct (H content).
    + split; [right; by eexists | done].
    + intros e''. split.
      * intros [= <-]. by exists e.
      * intros (e0 & [= <-] & He0). congruence.
    + destruct (fs !! audio_file) as [[content|e0]|]; simpl; lia.
    + lia.
    + destruct (fs !! audio_file) as [[content|e0]|]; split; try done.
      intros H. by destruct (H content).
    + split; [done|]. by intros [[v Hv]|[e0 He0]].
    + intros e''. split; [done|].
      intros (e0 & [= <-] & He0). congruence.
Qed.

(** X6. The request never has a field besides [model], [response_format],
    [language] and [prompt]; [model] and [response_format] are always
    there, and [response_format] is the argument, passed through
    unchecked. *)
Theorem request_fields (self : t) (language : option string) (fmt : string) :
  dom (transcribe_params self language fmt)
    ⊆ ({[ "model"; "response_format"; "language"; "prompt" ]} : gset string)
  ∧ ({[ "model"; "response_format" ]} : gset string)
    ⊆ dom (transcribe_params self language fmt)
  ∧ transcribe_params self language fmt !! "response_format" = Some fmt.
Proof.
  split_and!; [| |apply params_response_format].
  - unfold transcribe_params.
    destruct (_build_prompt self), language;
      repeat (destruct (truthy _));
      rewrite ?dom_insert_L, dom_empty_L; set_solver.
  - unfold transcribe_params.
    destruct (_build_prompt self), language;
      repeat (destruct (truthy _));
      rewrite ?dom_insert_L, dom_empty_L; set_solver.
Qed.

(** X7. The value returned does not tell a failed call from a successful
    one: no function of the result is true exactly on the calls whose
    [try] block raised, because a transcript may itself start with
    ["Error: "]. *)
Theorem error_results_are_ambiguous :
  ¬ ∃ failed : pyval → bool,
      ∀ (self : t) (fs : filesystem) (audio_file : string)
        (language : option string) (fmt : string) (w : io) (v : pyval),
        (transcribe self fs audio_file language fmt w).2 = Ret v →
        (failed v = true ↔
         raises (transcribe_try self fs audio_file language fmt w).2).
Proof.
  intros [failed Hfailed].
  set (echo :=
         {| api_key := Some "key";
            azure_endpoint := Some "https://e/";
            api_version := DEFAULT_API_VERSION;
            azure_deployment := None;
            client :=
              {| client_api_key := Some "key";
                 client_azure_endpoint := Some "https://e/";
                 client_api_version := DEFAULT_API_VERSION;
                 create := λ _ _,
                   Ret (Demo.text_response "Error: Connection error.") |};
            model := "whisper-1";
            custom_vocabulary := [];
            system_instructions := [] |}).
  pose proof (Hfailed echo Demo.disk "rec.wav" None "text" Demo.quiet
                (PStr "Error: Connection error.") eq_refl) as [Hsuccess _].
  pose proof (Hfailed Demo.offline_service Demo.disk "rec.wav" None "text"
                Demo.quiet (PStr "Error: Connection error.") eq_refl)
    as [_ Hfailure].
  destruct Hsuccess as [e He]; [|discriminate He].
  apply Hfailure. by eexists.
Qed.

End Calls.

Section FreshService.

Import WhisperTranscriber.

(** What [__init__] returns, when it returns. *)
Lemma init_returns (p : process) (k e v d : option string) (self : t) :
  __init__ p k e v d = Ret self →
  truthy (py_or (py_or k (getenv p "AZURE_OPENAI_API_KEY"))
                (getenv p "OPENAI_API_KEY")) = true
  ∧ truthy (py_or e (getenv p "AZURE_OPENAI_ENDPOINT")) = true
  ∧ ∃ new_client c,
      AzureOpenAI p = Some new_client
      ∧ new_client
          (py_or (py_or k (getenv p "AZURE_OPENAI_API_KEY"))
                 (getenv p "OPENAI_API_KEY"))
          (py_or e (getenv p "AZURE_OPENAI_ENDPOINT"))
          (py_or_lit (py_or v (getenv p "AZURE_OPENAI_API_VERSION"))
                     DEFAULT_API_VERSION) = Ret c
      ∧ self =
          {| api_key :=
               py_or (py_or k (getenv p "AZURE_OPENAI_API_KEY"))
                     (getenv p "OPENAI_API_KEY");
             azure_endpoint := py_or e (getenv p "AZURE_OPENAI_ENDPOINT");
             api_version :=
               py_or_lit (py_or v (getenv p "AZURE_OPENAI_API_VERSION"))
                         DEFAULT_API_VERSION;
             azure_deployment :=
               py_or d (getenv p "AZURE_OPENAI_DEPLOYMENT");
             client := c;
             model := "whisper-1";
             custom_vocabulary := [];
             system_instructions := [] |}.
Proof.
  intros Hinit.
  destruct (truthy (py_or (py_or k (getenv p "AZURE_OPENAI_API_KEY"))
                          (getenv p "OPENAI_API_KEY"))) eqn:Hk;
    [|by rewrite init_settings_required in Hinit by (by left)].
  destruct (truthy (py_or e (getenv p "AZURE_OPENAI_ENDPOINT"))) eqn:He;
    [|by rewrite init_settings_required in Hinit by (by right)].
  rewrite init_passes_check in Hinit by done.
  destruct (AzureOpenAI p) as [new_client|]; [|done].
  destruct (new_client _ _ _) as [c|] eqn:Hc; [|done].
  simpl in Hinit. injection Hinit as <-.
  split; [done|]. split; [done|]. by exists new_client, c.
Qed.

(** X8. A service that [__init__] returned always has a non-empty API key,
    a non-empty endpoint and a non-empty API version, both stores empty
    (so it has no prompt), and a client that the SDK built from exactly the
    key, endpoint and version recorded on the service. *)
Theorem init_postconditions (p : process) (k e v d : option string)
    (self : t) :
  __init__ p k e v d = Ret self →
  truthy (api_key self) = true
  ∧ truthy (azure_endpoint self) = true
  ∧ api_version self ≠ ""
  ∧ custom_vocabulary self = [] ∧ system_instructions self = []
  ∧ _build_prompt self = None
  ∧ ∃ new_client,
      AzureOpenAI p = Some new_client
      ∧ new_client (api_key self) (azure_endpoint self) (api_version self)
        = Ret (client self).
Proof.
  intros (Hk & He & new_client & c & Hsdk & Hc & ->)%init_returns. simpl.
  split_and!; try done.
  - by apply py_or_lit_nonempty.
  - by exists new_client.
Qed.

Lemma init_postconditions_witness :
  ∃ self,
    __init__ (Demo.with_sdk {[ "AZURE_OPENAI_ENDPOINT" := "https://e/" ]})
      (Some "key") (Some "") (Some "") None = Ret self
    ∧ azure_endpoint self = Some "https://e/"
    ∧ api_version self ≠ ""
    ∧ _build_prompt self = None.
Proof.
  assert (Hinit :
    __init__ (Demo.with_sdk {[ "AZURE_OPENAI_ENDPOINT" := "https://e/" ]})
      (Some "key") (Some "") (Some "") None =
    Ret {| api_key := Some "key";
           azure_endpoint := Some "https://e/";
           api_version := DEFAULT_API_VERSION;
           azure_deployment := None;
           client := Demo.answering (Some "key") (Some "https://e/")
                       DEFAULT_API_VERSION;
           model := "whisper-1";
           custom_vocabulary := [];
           system_instructions := [] |}) by reflexivity.
  eexists. split; [exact Hinit|].
  destruct (init_postconditions _ _ _ _ _ _ Hinit)
    as (_ & _ & Hv & _ & _ & Hprompt & _).
  split; [reflexivity|]. split; [exact Hv | exact Hprompt].
Defined.

(** X9. The first request of a service that [__init__] returned: its
    [model] field is the deployment name taken from the argument or else
    from [AZURE_OPENAI_DEPLOYMENT], and ["whisper-1"] when neither gives a
    non-empty name; it has no [prompt] field. *)
Theorem fresh_service_request (p : process) (k e v d : option string)
    (self : t) (language : option string) (fmt : string) :
  __init__ p k e v d = Ret self →
  transcribe_params self language fmt !! "model" =
    Some (py_or_lit d
            (py_or_lit (getenv p "AZURE_OPENAI_DEPLOYMENT") "whisper-1"))
  ∧ transcribe_params self language fmt !! "prompt" = None.
Proof.
  intros (Hk & He & new_client & c & Hsdk & Hc & ->)%init_returns.
  split.
  - rewrite params_model. simpl. f_equal. apply py_or_lit_py_or.
  - by rewrite params_prompt.
Qed.

Lemma fresh_service_request_witness :
  ∃ self,
    __init__ (Demo.with_sdk {[ "AZURE_OPENAI_DEPLOYMENT" := "prod-stt" ]})
      (Some "key") (Some "https://e/") None (Some "") = Ret self
    ∧ transcribe_params self (Some "en") "text" !! "model" = Some "prod-stt"
    ∧ transcribe_params self (Some "en") "text" !! "prompt" = None.
Proof.
  eexists. split; [reflexivity|].
  exact (fresh_service_request
           (Demo.with_sdk {[ "AZURE_OPENAI_DEPLOYMENT" := "prod-stt" ]})
           (Some "key") (Some "https://e/") None (Some "") _ (Some "en")
           "text" eq_refl).
Defined.

(** X10. Selecting a model changes the request only when no deployment
    name is configured: with a deployment name the request built after
    [set_model] is the same as before; without one it differs in the
    [model] field alone, which becomes the selected id. *)
Theorem set_model_and_deployment (self : t) (id : string)
    (language : option string) (fmt : string) :
  transcribe_params (set_model self id) language fmt =
    if truthy (azure_deployment self)
    then transcribe_params self language fmt
    else <["model" := id]> (transcribe_params self language fmt).
Proof.
  apply map_eq. intros key.
  assert (Hmodel : transcribe_params (set_model self id) language fmt
                     !! "model" =
                   Some (if truthy (azure_deployment self)
                         then py_or_lit (azure_deployment self) (model self)
                         else id)).
  { rewrite params_model. simpl.
    destruct (azure_deployment self) as [dep|]; simpl; [|done].
    by destruct (String.eqb dep ""). }
  assert (Hother : key ≠ "model" →
            transcribe_params (set_model self id) language fmt !! key =
            transcribe_params self language fmt !! key).
  { intros Hne. unfold transcribe_params.
    change (_build_prompt (set_model self id)) with (_build_prompt self).
    destruct (_build_prompt self), language;
      repeat (destruct (truthy _));
      rewrite !lookup_insert; repeat case_decide; subst; done. }
  destruct (decide (key = "model")) as [-> | Hne].
  - rewrite Hmodel. destruct (truthy (azure_deployment self)).
    + by rewrite params_model.
    + by rewrite lookup_insert_eq.
  - rewrite Hother by done. destruct (truthy (azure_deployment self)); [done|].
    by rewrite lookup_insert_ne.
Qed.

End FreshService.

(** * Further properties of the window *)

Section BackgroundThread.

Import WhisperTranscriber.

(** X11. As long as the signal accepts every string, the background
    thread never ends in an exception and delivers exactly one value.
    Without a service the value is the transcription-error message of the
    [AttributeError] and nothing is printed or sent.  With a service the
    printed lines and requests are those of [transcribe], called with the
    ["text"] format, and the value is the result of [transcribe] when the
    signal accepts it, the transcription-error message of the refused
    emission when it does not, and the transcription-error message of the
    exception that left [transcribe] when it raised. *)
Theorem perform_transcription_delivers (emit : pyval → res unit)
    (whisper_transcriber : option t) (fs : filesystem) (audio_file : string)
    (language : option string) (w : io) :
  (∀ s, emit (PStr s) = Ret tt) →
  Background.perform_transcription emit whisper_transcriber fs audio_file
    language w =
    match whisper_transcriber with
    | None =>
        (w, Ret [PStr (AppLabels.ERROR_TRANSCRIPTION
                         "'NoneType' object has no attribute 'transcribe'")])
    | Some self =>
        ((transcribe self fs audio_file language "text" w).1,
         Ret [match (transcribe self fs audio_file language "text" w).2 with
              | Ret v =>
                  match emit v with
                  | Ret _ => v
                  | Raise e => PStr (AppLabels.ERROR_TRANSCRIPTION (exn_str e))
                  end
              | Raise e => PStr (AppLabels.ERROR_TRANSCRIPTION (exn_str e))
              end])
    end
  ∧ (∃ v, (Background.perform_transcription emit whisper_transcriber fs
             audio_file language w).2 = Ret [v])
  ∧ (∀ self s,
       whisper_transcriber = Some self →
       (transcribe self fs audio_file language "text" w).2 = Ret (PStr s) →
       (Background.perform_transcription emit whisper_transcriber fs
          audio_file language w).2 = Ret [PStr s]).
Proof.
  intros Hstr.
  assert (Hrun :
    Background.perform_transcription emit whisper_transcriber fs audio_file
      language w =
      match whisper_transcriber with
      | None =>
          (w, Ret [PStr (AppLabels.ERROR_TRANSCRIPTION
                           "'NoneType' object has no attribute 'transcribe'")])
      | Some self =>
          ((transcribe self fs audio_file language "text" w).1,
           Ret [match (transcribe self fs audio_file language "text" w).2 with
                | Ret v =>
                    match emit v with
                    | Ret _ => v
                    | Raise e =>
                        PStr (AppLabels.ERROR_TRANSCRIPTION (exn_str e))
                    end
                | Raise e => PStr (AppLabels.ERROR_TRANSCRIPTION (exn_str e))
                end])
      end).
  { unfold Background.perform_transcription.
    destruct whisper_transcriber as [self|]; simpl.
    - destruct (transcribe self fs audio_file language "text" w)
        as [w' [v|e]]; simpl.
      + destruct (emit v) as [[]|e]; simpl; [done|]. by rewrite Hstr.
      + by rewrite Hstr.
    - by rewrite Hstr. }
  split_and!; [exact Hrun | |].
  - rewrite Hrun. destruct whisper_transcriber; by eexists.
  - intros self s -> Hs. by rewrite Hrun, Hs, Hstr.
Qed.

(** A signal that takes strings only.  Without a service the thread
    reports the attribute error; with the demonstration service, a missing
    file and a terminal that encodes in ASCII it reports the encoding error
    that left [transcribe]. *)
Lemma perform_transcription_delivers_witness :
  Background.perform_transcription
    (λ v, match v with
          | PStr _ => Ret tt
          | _ => Raise (Exn (OtherException "TypeError") "not a str")
          end)
    None Demo.disk "rec.wav" None Demo.quiet
  = (Demo.quiet,
     Ret [PStr (AppLabels.ERROR_TRANSCRIPTION
                  "'NoneType' object has no attribute 'transcribe'")]).
Proof.
  apply (perform_transcription_delivers
           (λ v, match v with
                 | PStr _ => Ret tt
                 | _ => Raise (Exn (OtherException "TypeError") "not a str")
                 end)
           None Demo.disk "rec.wav" None Demo.quiet).
  intros s. reflexivity.
Defined.

(** The thread on the demonstration service: a transcript is delivered as
    it is, and the encoding error that leaves [transcribe] on a terminal
    that encodes in ASCII is delivered as a transcription-error message. *)
Lemma perform_transcription_on_demo :
  (Background.perform_transcription (λ _, Ret tt) (Some Demo.service)
     Demo.disk "rec.wav" None Demo.quiet).2
  = Ret [PStr "hello world"]
  ∧ (Background.perform_transcription (λ _, Ret tt) (Some Demo.service)
       Demo.disk "gone.wav" None Demo.ascii_terminal).2
    = Ret [PStr (AppLabels.ERROR_TRANSCRIPTION
                   "'ascii' codec can't encode characters in position 37-50: ordinal not in range(128)")].
Proof.
  split; [reflexivity|].
  unfold Background.perform_transcription.
  by rewrite (transcribe_missing_ascii Demo.service Demo.disk "gone.wav" None
                "text" Demo.ascii_terminal eq_refl eq_refl).
Qed.

End BackgroundThread.

Section Credentials.

Import Preferences.

Lemma value_insert_eq (st : gmap string string) (key v default : string) :
  value (<[key := v]> st) key default = v.
Proof. unfold value. by rewrite lookup_insert_eq. Qed.

Lemma value_insert_ne (st : gmap string string) (key key' v default : string) :
  key ≠ key' → value (<[key := v]> st) key' default = value st key' default.
Proof. intros Hne. unfold value. by rewrite lookup_insert_ne. Qed.

(** The attributes and settings after the credentials dialog was
    accepted, whatever the constructor then does. *)
Lemma show_api_key_dialog_saves (p : WhisperTranscriber.process)
    (d : dialog_result) (a : t) :
  let a' := (show_api_key_dialog p (Some d) a).1 in
  api_key a' = entered_api_key d
  ∧ azure_endpoint a' = entered_endpoint d
  ∧ azure_api_version a' = entered_api_version d
  ∧ azure_deployment a' = entered_deployment d
  ∧ settings a' =
      <["azure_deployment" := entered_deployment d]>
        (<["azure_api_version" := entered_api_version d]>
           (<["azure_endpoint" := entered_endpoint d]>
              (<["api_key" := entered_api_key d]> (settings a)))).
Proof.
  unfold show_api_key_dialog. simpl.
  destruct (WhisperTranscriber.__init__ _ _ _ _ _) as [tr|[[] msg]];
    by simpl.
Qed.

(** X12. After the credentials dialog is accepted, the four entries are
    stored under their settings keys (other keys untouched), also when the
    constructor fails; and when the handler returns, the transcriber left
    in the window is the one that the next start of the application builds
    from the stored settings in the same process environment. *)
Theorem credentials_survive_restart (p : WhisperTranscriber.process)
    (d : dialog_result) (a : t) :
  let a' := (show_api_key_dialog p (Some d) a).1 in
  (value (settings a') "api_key" DEFAULT_API_KEY = entered_api_key d
   ∧ value (settings a') "azure_endpoint" DEFAULT_AZURE_OPENAI_ENDPOINT
     = entered_endpoint d
   ∧ value (settings a') "azure_api_version" DEFAULT_AZURE_OPENAI_API_VERSION
     = entered_api_version d
   ∧ value (settings a') "azure_deployment" DEFAULT_AZURE_OPENAI_DEPLOYMENT
     = entered_deployment d
   ∧ ∀ key, key ∉ ["api_key"; "azure_endpoint"; "azure_api_version";
                   "azure_deployment"] →
            settings a' !! key = settings a !! key)
  ∧ ((show_api_key_dialog p (Some d) a).2 = Ret tt →
     transcriber_at_startup p (settings a')
     = Ret (MainWindow.whisper_transcriber (window a'))).
Proof.
  intros a'.
  destruct (show_api_key_dialog_saves p d a) as (_ & _ & _ & _ & Hst).
  fold a' in Hst.
  assert (Hvalues :
    value (settings a') "api_key" DEFAULT_API_KEY = entered_api_key d
    ∧ value (settings a') "azure_endpoint" DEFAULT_AZURE_OPENAI_ENDPOINT
      = entered_endpoint d
    ∧ value (settings a') "azure_api_version"
        DEFAULT_AZURE_OPENAI_API_VERSION = entered_api_version d
    ∧ value (settings a') "azure_deployment" DEFAULT_AZURE_OPENAI_DEPLOYMENT
      = entered_deployment d).
  { rewrite Hst. split_and!.
    - by rewrite !value_insert_ne, value_insert_eq by done.
    - by rewrite !value_insert_ne, value_insert_eq by done.
    - by rewrite !value_insert_ne, value_insert_eq by done.
    - by rewrite value_insert_eq. }
  destruct Hvalues as (Hk & He & Hv & Hd).
  split; [split_and!; try done|].
  - intros key Hkey. rewrite Hst.
    rewrite !lookup_insert_ne; [done|..];
      intros <-; apply Hkey; set_solver.
  - intros Hret. unfold transcriber_at_startup. rewrite Hk, He, Hv, Hd.
    subst a'. revert Hret. unfold show_api_key_dialog, MainWindow.new_transcriber.
    simpl.
    destruct (WhisperTranscriber.__init__ _ _ _ _ _) as [tr|[[] msg]];
      simpl; try done.
Qed.

(** X13. A service installed by the credentials dialog is a new one: it
    has the model ["whisper-1"], an empty vocabulary and no instructions,
    hence no prompt, whatever model, vocabulary and instructions the
    replaced service had. *)
Theorem new_credentials_reset_the_service (p : WhisperTranscriber.process)
    (d : dialog_result) (a : t) (tr : WhisperTranscriber.t) :
  (show_api_key_dialog p (Some d) a).2 = Ret tt →
  MainWindow.whisper_transcriber
    (window (show_api_key_dialog p (Some d) a).1) = Some tr →
  WhisperTranscriber.model tr = "whisper-1"
  ∧ WhisperTranscriber.custom_vocabulary tr = []
  ∧ WhisperTranscriber.system_instructions tr = []
  ∧ WhisperTranscriber._build_prompt tr = None.
Proof.
  unfold show_api_key_dialog. simpl.
  destruct (WhisperTranscriber.__init__ _ _ _ _ _) as [built|[[] msg]] eqn:E;
    simpl; intros Hret Htr; try done.
  injection Htr as <-.
  by apply init_returns in E as (_ & _ & ctor & c & _ & _ & ->).
Qed.

(** A window whose service has a vocabulary; credentials are entered
    again. *)
Lemma new_credentials_reset_the_service_witness :
  ∃ tr,
    MainWindow.whisper_transcriber
      (window
         (show_api_key_dialog (Demo.with_sdk ∅)
            (Some (Accepted "key2" "https://e2/" "" ""))
            {| api_key := "key";
               azure_endpoint := "https://example.openai.azure.com/";
               azure_api_version := "2024-02-15-preview";
               azure_deployment := "my-deployment";
               settings := ∅;
               window := Demo.fresh_window |}).1) = Some tr
    ∧ WhisperTranscriber.custom_vocabulary tr = []
    ∧ WhisperTranscriber.custom_vocabulary Demo.service
      = ["Kubernetes"; "gRPC"].
Proof.
  eexists. split; [reflexivity|]. split; [|reflexivity].
  match goal with
  | |- WhisperTranscriber.custom_vocabulary ?built = [] =>
      exact (proj1 (proj2 (new_credentials_reset_the_service
                             (Demo.with_sdk ∅)
                             (Accepted "key2" "https://e2/" "" "")
                             {| api_key := "key";
                                azure_endpoint :=
                                  "https://example.openai.azure.com/";
                                azure_api_version := "2024-02-15-preview";
                                azure_deployment := "my-deployment";
                                settings := ∅;
                                window := Demo.fresh_window |}
                             built eq_refl eq_refl)))
  end.
Defined.

(** X14. When the credentials dialog is accepted with an API key or an
    endpoint that is empty and not supplied by the environment either, the
    window is left without a service, also if it had one before; a toggle
    that then finds the recorder stopped only shows the warning and starts
    no capture. *)
Theorem incomplete_credentials_block_recording
    (p : WhisperTranscriber.process) (d : dialog_result) (a : t)
    (captured : option string) :
  (entered_api_key d = ""
   ∧ truthy (WhisperTranscriber.getenv p "AZURE_OPENAI_API_KEY") = false
   ∧ truthy (WhisperTranscriber.getenv p "OPENAI_API_KEY") = false)
  ∨ (entered_endpoint d = ""
     ∧ truthy (WhisperTranscriber.getenv p "AZURE_OPENAI_ENDPOINT") = false) →
  AudioRecorder.is_recording (MainWindow.audio_recorder (window a)) = false →
  let w' := window (show_api_key_dialog p (Some d) a).1 in
  (show_api_key_dialog p (Some d) a).2 = Ret tt
  ∧ MainWindow.whisper_transcriber w' = None
  ∧ MainWindow._toggle_recording_impl captured w' =
      MainWindow.does
        [MainWindow.MessageBoxWarning AppLabels.ERROR_TITLE
           AppLabels.ERROR_API_KEY_REQUIRED] w'
  ∧ AudioRecorder.is_recording
      (MainWindow.audio_recorder
         (MainWindow._toggle_recording_impl captured w')) = false.
Proof.
  intros Hmissing Hrec w'.
  assert (Hinit :
    WhisperTranscriber.__init__ p (Some (entered_api_key d))
      (Some (entered_endpoint d)) (Some (entered_api_version d))
      (Some (entered_deployment d)) =
    Raise (Exn ValueError WhisperTranscriber.MSG_SETTINGS_REQUIRED)).
  { apply init_settings_required. rewrite !truthy_py_or.
    destruct Hmissing as [(-> & -> & ->) | (-> & ->)]; [by left | by right]. }
  assert (Hnone : MainWindow.whisper_transcriber w' = None).
  { subst w'. unfold show_api_key_dialog. simpl. by rewrite Hinit. }
  assert (Hstopped :
    AudioRecorder.is_recording (MainWindow.audio_recorder w') = false).
  { subst w'. unfold show_api_key_dialog. simpl. by rewrite Hinit. }
  split_and!.
  - unfold show_api_key_dialog. simpl. by rewrite Hinit.
  - done.
  - by apply toggle_unconfigured.
  - by rewrite toggle_unconfigured.
Qed.

Lemma incomplete_credentials_block_recording_witness :
  MainWindow.whisper_transcriber
    (window
       (show_api_key_dialog (Demo.with_sdk ∅)
          (Some (Accepted "key" "" "2024-02-15-preview" ""))
          {| api_key := "key";
             azure_endpoint := "https://example.openai.azure.com/";
             azure_api_version := "2024-02-15-preview";
             azure_deployment := "";
             settings := ∅;
             window := Demo.fresh_window |}).1) = None.
Proof.
  exact (proj1 (proj2 (incomplete_credentials_block_recording
                         (Demo.with_sdk ∅)
                         (Accepted "key" "" "2024-02-15-preview" "")
                         {| api_key := "key";
                            azure_endpoint :=
                              "https://example.openai.azure.com/";
                            azure_api_version := "2024-02-15-preview";
                            azure_deployment := "";
                            settings := ∅;
                            window := Demo.fresh_window |}
                         None (or_intror (conj eq_refl eq_refl)) eq_refl))).
Defined.

(** X15. At start-up the credentials dialog is opened from the stored
    settings alone, while the service also reads the environment: with no
    key stored, a key and an endpoint in the environment and a working SDK,
    the window gets a configured service and still opens the dialog. *)
Theorem dialog_ignores_the_environment (p : WhisperTranscriber.process)
    (st : gmap string string)
    (new_client : option string → option string → string
                  → res WhisperTranscriber.sdk_client) :
  st !! "api_key" = None →
  truthy (WhisperTranscriber.getenv p "AZURE_OPENAI_API_KEY") = true →
  truthy (py_or (Some (value st "azure_endpoint"
                         DEFAULT_AZURE_OPENAI_ENDPOINT))
                (WhisperTranscriber.getenv p "AZURE_OPENAI_ENDPOINT"))
    = true →
  WhisperTranscriber.AzureOpenAI p = Some new_client →
  (∀ k e v, returns (new_client k e v)) →
  dialog_at_startup st = true
  ∧ ∃ tr, transcriber_at_startup p st = Ret (Some tr)
          ∧ WhisperTranscriber.api_key tr
            = WhisperTranscriber.getenv p "AZURE_OPENAI_API_KEY".
Proof.
  intros Hkey Henv Hendpoint Hsdk Hnew.
  assert (Hvalue : value st "api_key" DEFAULT_API_KEY = "")
    by (unfold value; by rewrite Hkey).
  split.
  - unfold dialog_at_startup. by rewrite Hvalue.
  - unfold transcriber_at_startup, MainWindow.new_transcriber.
    rewrite Hvalue.
    rewrite init_passes_check, Hsdk.
    + destruct (Hnew
        (py_or (py_or (Some "")
                  (WhisperTranscriber.getenv p "AZURE_OPENAI_API_KEY"))
               (WhisperTranscriber.getenv p "OPENAI_API_KEY"))
        (py_or (Some (value st "azure_endpoint"
                        DEFAULT_AZURE_OPENAI_ENDPOINT))
               (WhisperTranscriber.getenv p "AZURE_OPENAI_ENDPOINT"))
        (py_or_lit
           (py_or (Some (value st "azure_api_version"
                           DEFAULT_AZURE_OPENAI_API_VERSION))
                  (WhisperTranscriber.getenv p "AZURE_OPENAI_API_VERSION"))
           WhisperTranscriber.DEFAULT_API_VERSION)) as [c ->].
      cbn [res_bind]. eexists. split; [reflexivity|].
      cbn [WhisperTranscriber.api_key].
      change (py_or (Some "")
                (WhisperTranscriber.getenv p "AZURE_OPENAI_API_KEY"))
        with (WhisperTranscriber.getenv p "AZURE_OPENAI_API_KEY").
      unfold py_or. by rewrite Henv.
    + rewrite !truthy_py_or. simpl. by rewrite Henv.
    + done.
Qed.

Lemma dialog_ignores_the_environment_witness :
  dialog_at_startup ∅ = true
  ∧ ∃ tr,
      transcriber_at_startup
        (Demo.with_sdk
           (<[ "AZURE_OPENAI_API_KEY" := "key" ]>
              {[ "AZURE_OPENAI_ENDPOINT" := "https://e/" ]})) ∅
      = Ret (Some tr)
      ∧ WhisperTranscriber.api_key tr = Some "key".
Proof.
  destruct (dialog_ignores_the_environment
              (Demo.with_sdk
                 (<[ "AZURE_OPENAI_API_KEY" := "key" ]>
                    {[ "AZURE_OPENAI_ENDPOINT" := "https://e/" ]})) ∅
              (λ k e v, Ret (Demo.answering k e v)))
    as (Hdialog & tr & Hstart & Hkey);
    [reflexivity | reflexivity | reflexivity | reflexivity
    | intros k e v; by eexists |].
  split; [exact Hdialog|]. exists tr. split; [exact Hstart | exact Hkey].
Defined.

(** X16. Accepting the vocabulary dialog replaces the vocabulary by the
    dialog's list (earlier terms are dropped, order and repetitions of the
    new list kept) and keeps instructions and model.  Doing it twice with
    the same list changes nothing more. *)
Theorem vocabulary_dialog_replaces (l : list string) (w : MainWindow.t)
    (tr : WhisperTranscriber.t) :
  MainWindow.whisper_transcriber w = Some tr →
  ∃ tr',
    MainWindow.whisper_transcriber (show_vocabulary_dialog (Some l) w)
      = Some tr'
    ∧ WhisperTranscriber.get_custom_vocabulary tr' = l
    ∧ WhisperTranscriber.get_system_instructions tr'
      = WhisperTranscriber.get_system_instructions tr
    ∧ WhisperTranscriber.model tr' = WhisperTranscriber.model tr
    ∧ MainWindow.whisper_transcriber
        (show_vocabulary_dialog (Some l) (show_vocabulary_dialog (Some l) w))
      = Some tr'.
Proof.
  intros Htr. unfold show_vocabulary_dialog. rewrite Htr. simpl.
  eexists. split; [reflexivity|]. by split_and!.
Qed.

Lemma vocabulary_dialog_replaces_witness :
  ∃ tr',
    MainWindow.whisper_transcriber
      (show_vocabulary_dialog (Some ["etcd"]) Demo.fresh_window) = Some tr'
    ∧ WhisperTranscriber._build_prompt tr'
      = Some "Vocabulary: etcd Instructions: Remove filler words".
Proof.
  destruct (vocabulary_dialog_replaces ["etcd"] Demo.fresh_window
              Demo.service eq_refl) as (tr' & Htr' & _).
  exists tr'. split; [exact Htr'|].
  injection Htr' as <-. reflexivity.
Defined.

End Credentials.

Section Options.

Import MainWindow.

(** What one trigger adds to the log, and the options it leaves alone. *)
Lemma step_adds (w : t) (tr : trigger) :
  ∃ added,
    effects (step w tr) = effects w ++ added
    ∧ enable_sound (step w tr) = enable_sound w
    ∧ show_indicator (step w tr) = show_indicator w
    ∧ auto_copy (step w tr) = auto_copy w
    ∧ match tr with
      | Toggle captured =>
          added = stop_calls captured w
          ∨ added = start_calls w
          ∨ added = [MessageBoxWarning AppLabels.ERROR_TITLE
                       AppLabels.ERROR_API_KEY_REQUIRED]
      | Complete k text => added = [] ∨ added = complete_calls text w
      end.
Proof.
  destruct tr as [captured | k text]; simpl.
  - unfold _toggle_recording_impl.
    destruct (AudioRecorder.is_recording (audio_recorder w)).
    + rewrite stop_recording_calls. eexists. split_and!; try done. by left.
    + destruct (whisper_transcriber w) as [service|] eqn:Hservice.
      * rewrite start_recording_configured by eauto.
        eexists. split_and!; try done. right. by left.
      * rewrite start_recording_unconfigured by done.
        eexists. split_and!; try done. right. by right.
  - destruct (threads w !! k).
    + rewrite on_transcription_complete_calls.
      eexists. split_and!; try done. by right.
    + exists []. rewrite app_nil_r. split_and!; try done. by left.
Qed.

(** X17. With the notification sounds switched off, no sequence of toggles
    and completions plays a sound: every sound in the log was there
    before. *)
Theorem sound_off_is_silent (w : t) (trs : list trigger) (s : sound) :
  enable_sound w = false →
  Play s ∈ effects (run w trs) → Play s ∈ effects w.
Proof.
  revert w. induction trs as [|tr trs IH]; intros w Hoff Hin; [done|].
  simpl in Hin.
  destruct (step_adds w tr) as (added & Hlog & Hsound & _ & _ & Hcases).
  apply IH in Hin; [|by rewrite Hsound].
  rewrite Hlog in Hin. apply elem_of_app in Hin as [Hin | Hin]; [done|].
  exfalso.
  destruct tr as [captured | k text].
  - destruct Hcases as [-> | [-> | ->]]; revert Hin;
      unfold stop_calls, start_calls, dispatched; rewrite ?Hoff;
      repeat case_match; set_unfold; naive_solver.
  - destruct Hcases as [-> | ->]; revert Hin;
      unfold complete_calls; rewrite ?Hoff;
      repeat case_match; set_unfold; naive_solver.
Qed.

Lemma sound_off_is_silent_witness :
  Play CompleteSound ∉
    effects (run (play_complete_sound
                    {| audio_recorder := AudioRecorder.new;
                       whisper_transcriber := Some Demo.service;
                       show_indicator := true;
                       enable_sound := false;
                       auto_copy := true;
                       selected_language := None;
                       model_name := "Whisper";
                       threads := [];
                       effects := [] |})
           [Toggle None; Toggle (Some "a.wav"); Complete 0 "hello"]).
Proof.
  intros Hin.
  apply sound_off_is_silent in Hin; [|reflexivity].
  by apply elem_of_nil in Hin.
Defined.

(** X18. With the status indicator switched off, no sequence of toggles
    and completions shows the indicator window or sets its mode. *)
Theorem indicator_off_stays_hidden (w : t) (trs : list trigger) (e : effect) :
  show_indicator w = false →
  e = IndicatorShow ∨ (∃ mode, e = IndicatorSetMode mode) →
  e ∈ effects (run w trs) → e ∈ effects w.
Proof.
  revert w. induction trs as [|tr trs IH]; intros w Hoff He Hin; [done|].
  simpl in Hin.
  destruct (step_adds w tr) as (added & Hlog & _ & Hindicator & _ & Hcases).
  apply IH in Hin; [|by rewrite Hindicator|done].
  rewrite Hlog in Hin. apply elem_of_app in Hin as [Hin | Hin]; [done|].
  exfalso.
  destruct tr as [captured | k text].
  - destruct Hcases as [-> | [-> | ->]]; revert Hin;
      unfold stop_calls, start_calls, dispatched; rewrite ?Hoff;
      repeat case_match; set_unfold; naive_solver.
  - destruct Hcases as [-> | ->]; revert Hin;
      unfold complete_calls; rewrite ?Hoff;
      repeat case_match; set_unfold; naive_solver.
Qed.

Lemma indicator_off_stays_hidden_witness :
  IndicatorShow ∉
    effects (run {| audio_recorder := AudioRecorder.new;
                    whisper_transcriber := Some Demo.service;
                    show_indicator := false;
                    enable_sound := true;
                    auto_copy := true;
                    selected_language := None;
                    model_name := "Whisper";
                    threads := [];
                    effects := [] |}
           [Toggle None; Toggle (Some "a.wav"); Complete 0 "hello"]).
Proof.
  intros Hin.
  apply indicator_off_stays_hidden in Hin; [|reflexivity | by left].
  by apply elem_of_nil in Hin.
Defined.






(** X20. A toggle that stops a capture yielding a non-empty path starts
    exactly one background transcription, of that path with the language
    selected at that moment, after announcing the transcription in the
    status bar (twice) and before the stop sound. *)
Theorem stop_with_artifact (w : t) (path : string) :
  AudioRecorder.is_recording (audio_recorder w) = true →
  path ≠ "" →
  threads (_toggle_recording_impl (Some path) w)
    = threads w ++ [(path, selected_language w)]
  ∧ effects (_toggle_recording_impl (Some path) w)
    = effects w
      ++ [RecordButtonSetText AppLabels.RECORD_START_BUTTON;
          RecorderStop (Some path);
          RecordingStatusChanged false;
          RecordingTimerStop;
          StatusBarShowMessage AppLabels.STATUS_TRANSCRIBING;
          StatusBarShowMessage AppLabels.STATUS_TRANSCRIBING]
      ++ (if show_indicator w
          then [IndicatorHide; IndicatorSetMode MODE_TRANSCRIBING;
                IndicatorShow]
          else [])
      ++ [ThreadStart path (selected_language w)]
      ++ (if enable_sound w then [Play StopSound] else [])
  ∧ session_state (_toggle_recording_impl (Some path) w) = Transcribing.
Proof.
  intros Hrec Hpath. apply truthy_Some in Hpath.
  unfold _toggle_recording_impl. rewrite Hrec, stop_recording_calls.
  unfold session_state, stop_calls, dispatched. rewrite !Hpath.
  cbn [threads effects audio_recorder does set_threads set_audio_recorder
       AudioRecorder.is_recording AudioRecorder.recording map fst snd].
  split_and!; [done | | ].
  - by destruct (show_indicator w).
  - case_bool_decide as Hempty; [|done].
    by apply app_eq_nil in Hempty as [_ ?].
Qed.

Lemma stop_with_artifact_witness :
  threads (_toggle_recording_impl (Some "a.wav") Demo.recording_window)
    = [("a.wav", Some "")]
  ∧ session_state (_toggle_recording_impl (Some "a.wav") Demo.recording_window)
    = Transcribing.
Proof.
  destruct (stop_with_artifact Demo.recording_window "a.wav" eq_refl
              ltac:(discriminate)) as (Hthreads & _ & Hstate).
  split; [exact Hthreads | exact Hstate].
Defined.

End Options.

Section GlobalHotkey.

Import Hotkeys.

Lemma registrations_app (cs cs' : list call) :
  registrations (cs ++ cs') = registrations cs ++ registrations cs'.
Proof. apply omap_app. Qed.


(** The log after [setup_global_hotkey], by the outcome of the
    registration. *)
Lemma setup_global_hotkey_calls (outcome : res bool) (w : t) :
  setup_global_hotkey outcome w =
    match outcome with
    | Ret true =>
        (does [RegisterHotkey (hotkey w);
               Print ("Hotkey '" +:+ hotkey w
                      +:+ "' has been set successfully")] w,
         true)
    | Ret false =>
        (does [RegisterHotkey (hotkey w);
               Print ("Hotkey setup error: "
                      +:+ "Failed to register hotkey: " +:+ hotkey w);
               StatusBarShowMessage
                 (AppLabels.ERROR_HOTKEY
                    ("Failed to register hotkey: " +:+ hotkey w)) 5000] w,
         false)
    | Raise e =>
        (does [RegisterHotkey (hotkey w);
               Print ("Hotkey setup error: " +:+ exn_str e);
               StatusBarShowMessage (AppLabels.ERROR_HOTKEY (exn_str e)) 5000]
           w,
         false)
    end.
Proof.
  unfold setup_global_hotkey, does.
  destruct outcome as [[]|e]; simpl; by rewrite <- ?app_assoc.
Qed.


(** What [show_hotkey_dialog] adds to the log. *)
Lemma show_hotkey_dialog_calls (dialog : option (option string))
    (outcome : res bool) (w : t) :
  show_hotkey_dialog dialog outcome w =
    match dialog with
    | None => (setup_global_hotkey outcome (does [StopListener] w)).1
    | Some None => does [StopListener] w
    | Some (Some h) =>
        if String.eqb h "" then does [StopListener] w
        else
          does [StatusBarShowMessage (AppLabels.STATUS_HOTKEY_SET h) 3000]
            (setup_global_hotkey outcome
               {| hotkey := h;
                  calls := calls w ++ [StopListener;
                                       SettingsSetValue "hotkey" h] |}).1
    end.
Proof.
  unfold show_hotkey_dialog. destruct dialog as [[h|]|]; try done.
  simpl. destruct (String.eqb h ""); simpl; [done|].
  rewrite !setup_global_hotkey_calls.
  destruct outcome as [[]|e]; simpl; unfold does; simpl;
    by rewrite <- ?app_assoc.
Qed.

(** X22. The hotkey dialog always stops the listener first.  A rejected
    dialog registers the old hotkey again; a dialog accepted with a
    non-empty hotkey registers the new one (once) and makes it the current
    hotkey; a dialog accepted with an empty hotkey registers nothing, so
    the listener stays stopped and the hotkey is unchanged. *)
Theorem hotkey_dialog_registrations (dialog : option (option string))
    (outcome : res bool) (w : t) :
  (∃ rest, calls (show_hotkey_dialog dialog outcome w)
           = calls w ++ StopListener :: rest)
  ∧ registrations (calls (show_hotkey_dialog dialog outcome w))
    = registrations (calls w) ++
      match dialog with
      | None => [hotkey w]
      | Some new_hotkey =>
          match new_hotkey with
          | Some h => if truthy new_hotkey then [h] else []
          | None => []
          end
      end
  ∧ hotkey (show_hotkey_dialog dialog outcome w) =
      match dialog with
      | Some (Some h) => if truthy (Some h) then h else hotkey w
      | _ => hotkey w
      end
  ∧ (dialog = Some None ∨ dialog = Some (Some "") →
     calls (show_hotkey_dialog dialog outcome w) = calls w ++ [StopListener]).
Proof.
  rewrite show_hotkey_dialog_calls.
  destruct dialog as [[h|]|]; simpl.
  - destruct (String.eqb_spec h "") as [-> | Hne]; simpl.
    + split_and!; try done; [by eexists | by rewrite registrations_app; simpl; rewrite !app_nil_r].
    + rewrite setup_global_hotkey_calls.
      destruct outcome as [[]|e]; simpl;
        rewrite <- ?app_assoc, !registrations_app; simpl;
        (split_and!; [by eexists | by rewrite ?app_nil_r | done |]);
        intros [[=] | [= ->]]; done.
  - split_and!; try done; [by eexists | by rewrite registrations_app; simpl; rewrite !app_nil_r].
  - rewrite setup_global_hotkey_calls.
    destruct outcome as [[]|e]; simpl;
      rewrite <- ?app_assoc, !registrations_app; simpl;
      (split_and!; [by eexists | by rewrite ?app_nil_r | done |]);
      intros [[=] | [=]].
Qed.



End GlobalHotkey.

Section Timer.

Import RecordingTimer.

(** Below one hundred the two-digit format has two characters and tells
    the numbers apart. *)
Lemma format_02d_two_digits :
  Forall (λ n, String.length (format_02d n) = 2
               ∧ Forall (λ m, format_02d n = format_02d m → n = m)
                   (seqZ 0 100))
    (seqZ 0 100).
Proof. apply (bool_decide_unpack _). vm_compute. exact I. Qed.

(** X24. For a capture shorter than one hundred minutes the timer label
    has exactly five characters (minutes, a colon, seconds), and two
    different elapsed times never give the same label. *)
Theorem time_str_below_100_minutes (elapsed : Z) :
  (0 ≤ elapsed < 6000)%Z →
  String.length (time_str elapsed) = 5
  ∧ ∀ elapsed', (0 ≤ elapsed' < 6000)%Z →
      time_str elapsed = time_str elapsed' → elapsed = elapsed'.
Proof.
  intros Hrange.
  pose proof format_02d_two_digits as Htable.
  rewrite Forall_forall in Htable.
  assert (Hdigits : ∀ n, (0 ≤ n < 100)%Z →
            String.length (format_02d n) = 2
            ∧ ∀ m, (0 ≤ m < 100)%Z → format_02d n = format_02d m → n = m).
  { intros n Hn. destruct (Htable n) as [Hlen Hinj];
      [apply elem_of_seqZ; lia|].
    split; [done|]. intros m Hm. rewrite Forall_forall in Hinj.
    apply Hinj, elem_of_seqZ. lia. }
  assert (Hparts : ∀ x, (0 ≤ x < 6000)%Z →
            (0 ≤ x `div` 60 < 100)%Z ∧ (0 ≤ x `mod` 60 < 100)%Z).
  { intros x Hx. split.
    - split; [apply Z.div_pos; lia | apply Z.div_lt_upper_bound; lia].
    - pose proof (Z.mod_pos_bound x 60). lia. }
  destruct (Hparts elapsed Hrange) as [Hmin Hsec].
  destruct (Hdigits _ Hmin) as [Hlen_min Hinj_min].
  destruct (Hdigits _ Hsec) as [Hlen_sec Hinj_sec].
  unfold time_str. split.
  - rewrite !length_append, Hlen_min, Hlen_sec. reflexivity.
  - intros elapsed' Hrange' Heq.
    destruct (Hparts elapsed' Hrange') as [Hmin' Hsec'].
    destruct (Hdigits _ Hmin') as [Hlen_min' _].
    apply append_inj in Heq as [Hm Hs]; [|by rewrite Hlen_min, Hlen_min'].
    apply (append_inj ":" ":") in Hs as [_ Hs]; [|done].
    apply Hinj_min in Hm; [|done]. apply Hinj_sec in Hs; [|done].
    rewrite (Z.div_mod elapsed 60), (Z.div_mod elapsed' 60) by lia.
    by rewrite Hm, Hs.
Qed.

Lemma time_str_below_100_minutes_witness :
  String.length (time_str 754) = 5 ∧ time_str 754 = "12:34".
Proof.
  split; [|reflexivity].
  exact (proj1 (time_str_below_100_minutes 754 ltac:(lia))).
Defined.

End Timer.

Section MoreWitnesses.

(** The obvious test, "the result starts with the error marker", is not
    such a function. *)
Lemma error_results_are_ambiguous_witness :
  ¬ ∀ (self : WhisperTranscriber.t) (fs : WhisperTranscriber.filesystem)
      (audio_file : string) (language : option string) (fmt : string)
      (w : WhisperTranscriber.io) (v : pyval),
      (WhisperTranscriber.transcribe self fs audio_file language fmt w).2
        = Ret v →
      ((match v with PStr s => startswith s "Error: " | _ => false end) = true
       ↔ raises (WhisperTranscriber.transcribe_try self fs audio_file
                   language fmt w).2).
Proof.
  intros Htest. apply error_results_are_ambiguous.
  by exists (λ v, match v with PStr s => startswith s "Error: " | _ => false end).
Defined.

(** Credentials entered in the dialog and read back at the next start. *)
Lemma credentials_survive_restart_witness :
  Preferences.transcriber_at_startup (Demo.with_sdk ∅)
    (Preferences.settings
       (Preferences.show_api_key_dialog (Demo.with_sdk ∅)
          (Some (Preferences.Accepted "key" "https://e/" "" "stt"))
          {| Preferences.api_key := "";
             Preferences.azure_endpoint := "";
             Preferences.azure_api_version := "2024-02-15-preview";
             Preferences.azure_deployment := "";
             Preferences.settings := {[ "hotkey" := "ctrl+shift+r" ]};
             Preferences.window := Demo.fresh_window |}).1)
  = Ret (MainWindow.whisper_transcriber
           (Preferences.window
              (Preferences.show_api_key_dialog (Demo.with_sdk ∅)
                 (Some (Preferences.Accepted "key" "https://e/" "" "stt"))
                 {| Preferences.api_key := "";
                    Preferences.azure_endpoint := "";
                    Preferences.azure_api_version := "2024-02-15-preview";
                    Preferences.azure_deployment := "";
                    Preferences.settings := {[ "hotkey" := "ctrl+shift+r" ]};
                    Preferences.window := Demo.fresh_window |}).1)).
Proof.
  apply (credentials_survive_restart (Demo.with_sdk ∅)
           (Preferences.Accepted "key" "https://e/" "" "stt")).
  reflexivity.
Defined.

(** The dialog accepted with an empty hotkey: the listener is stopped and
    nothing is registered. *)
Lemma hotkey_dialog_registrations_witness :
  Hotkeys.calls
    (Hotkeys.show_hotkey_dialog (Some (Some "")) (Ret true)
       {| Hotkeys.hotkey := "ctrl+shift+r"; Hotkeys.calls := [] |})
  = [Hotkeys.StopListener].
Proof.
  apply (hotkey_dialog_registrations (Some (Some "")) (Ret true)
           {| Hotkeys.hotkey := "ctrl+shift+r"; Hotkeys.calls := [] |}).
  by right.
Defined.

End MoreWitnesses.

Section ModelSelection.

Import Preferences.

(** X25. A model selected while the window has no service, or an empty
    selection, changes nothing: the selection is neither applied nor saved
    in the settings.  With a service and a non-empty id the service gets
    that id (vocabulary, instructions and deployment kept), the id is saved
    under the settings key [model], and the requests of the service carry
    the id unless a deployment name is configured. *)
Theorem model_selection (model_id : option string) (a : t) :
  (truthy model_id = false
   ∨ MainWindow.whisper_transcriber (window a) = None →
   on_model_changed model_id a = a)
  ∧ (∀ id tr,
       model_id = Some id ∧ id ≠ ""
       ∧ MainWindow.whisper_transcriber (window a) = Some tr →
       MainWindow.whisper_transcriber (window (on_model_changed model_id a))
         = Some (WhisperTranscriber.set_model tr id)
       ∧ settings (on_model_changed model_id a) !! "model" = Some id
       ∧ WhisperTranscriber._build_prompt (WhisperTranscriber.set_model tr id)
         = WhisperTranscriber._build_prompt tr
       ∧ ∀ language fmt,
           WhisperTranscriber.transcribe_params
             (WhisperTranscriber.set_model tr id) language fmt !! "model"
           = Some (py_or_lit (WhisperTranscriber.azure_deployment tr) id)).
Proof.
  split.
  - unfold on_model_changed. intros [Hempty | Hnone].
    + destruct model_id as [id|]; [|done].
      destruct (MainWindow.whisper_transcriber (window a)); [|done].
      by rewrite Hempty.
    + rewrite Hnone. by destruct model_id.
  - intros id tr (-> & Hid & Htr). apply truthy_Some in Hid.
    unfold on_model_changed. rewrite Htr, Hid. simpl.
    split_and!; try done.
    + by rewrite lookup_insert_eq.
    + intros language fmt. by rewrite params_model.
Qed.

Lemma model_selection_witness :
  settings
    (on_model_changed (Some "gpt-4o-transcribe")
       {| api_key := "key";
          azure_endpoint := "https://e/";
          azure_api_version := "2024-02-15-preview";
          azure_deployment := "";
          settings := ∅;
          window := Preferences.set_whisper_transcriber None
                      Demo.fresh_window |}) !! "model" = None
  ∧ settings
      (on_model_changed (Some "gpt-4o-transcribe")
         {| api_key := "key";
            azure_endpoint := "https://e/";
            azure_api_version := "2024-02-15-preview";
            azure_deployment := "";
            settings := ∅;
            window := Demo.fresh_window |}) !! "model"
    = Some "gpt-4o-transcribe".
Proof.
  split.
  - rewrite (proj1 (model_selection (Some "gpt-4o-transcribe") _));
      [reflexivity | by right].
  - apply (proj2 (model_selection (Some "gpt-4o-transcribe")
                    {| api_key := "key";
                       azure_endpoint := "https://e/";
                       azure_api_version := "2024-02-15-preview";
                       azure_deployment := "";
                       settings := ∅;
                       window := Demo.fresh_window |})
             "gpt-4o-transcribe" Demo.service).
    split_and!; [reflexivity | discriminate | reflexivity].
Defined.

End ModelSelection.
